(** * The Tx module of irishub-sdk-js: building, signing and broadcasting

    A shallow embedding of [src/modules/tx.ts] (class [Tx]) and of
    [Bank.queryAccount].  The JavaScript code talks to four collaborators
    that are not part of the module: the key store ([config.keyDAO]), the
    node ([rpcClient], [auth.queryAccount]), the crypto helpers ([Crypto])
    and the transaction object ([types.ProtoTx]).  They are taken as
    records of functions; the calls the module makes to the key store, to
    the node and to the crypto helpers, and the calls that build on or
    change the transaction object, are written to a trace in program
    order, so that statements about what is called, and before what, can
    be made about the code itself. *)

From Stdlib Require Import String Ascii List ZArith NArith Bool Lia.
From Stdlib Require Import DecimalString.
From ExtLib Require Import Structures.Monad.
Import ListNotations.
Import MonadNotation.
Local Open Scope string_scope.
Local Open Scope monad_scope.

Set Implicit Arguments.

(** ** JavaScript values *)

Definition bytes := list Byte.byte.

(** [is.empty] of is_js on a string: [value === '']. *)
Definition is_empty (s : string) : bool := String.eqb s "".

(** An optional string ([string | undefined]) and its truthiness. *)
Definition truthy_str (o : option string) : bool :=
  match o with
  | None => false
  | Some s => negb (String.eqb s "")
  end.

(** [a ?? d]: only [undefined] and [null] give the default. *)
Definition nullish (o : option string) (d : string) : string :=
  match o with
  | None => d
  | Some s => s
  end.

(** [a || d] on an optional string: every falsy value gives the default. *)
Definition or_else (o : option string) (d : string) : string :=
  if truthy_str o then nullish o d else d.

(** [s || undefined] on a string. *)
Definition or_undefined (s : string) : option string :=
  if String.eqb s "" then None else Some s.

(** A field the node answers with: absent, a number or a string. *)
Inductive JsScalar : Type :=
| JUndefined
| JNumber (z : Z)
| JString (s : string).

Definition truthy (v : JsScalar) : bool :=
  match v with
  | JUndefined => false
  | JNumber z => negb (Z.eqb z 0)
  | JString s => negb (String.eqb s "")
  end.

(** [String(v)]. *)
Definition String_ (v : JsScalar) : string :=
  match v with
  | JUndefined => "undefined"
  | JNumber z => NilZero.string_of_int (Z.to_int z)
  | JString s => s
  end.

(** ** Errors *)

(** The second argument of [new SdkError(msg, code)].  [CodeDefault] is the
    constructor called with a message only; [CodeOf n] is a numeric code
    copied from a response of the node. *)
Inductive Code : Type :=
| CodeDefault
| Panic
| KeyNotFound
| InvalidPassword
| InvalidType
| Internal
| CodeOf (n : N).

Record SdkError : Type := mkSdkError { msg : string; code : Code }.

(** What a collaborator rejects with; the module passes it on untouched. *)
Definition PortError := string.

Inductive Exn : Type :=
| Thrown (e : SdkError)
| Propagated (e : PortError).

Inductive Res (A : Type) : Type :=
| Ok (a : A)
| Raise (e : Exn).
Arguments Ok {A} a.
Arguments Raise {A} e.

(** The answer of a collaborator. *)
Inductive PortRes (A : Type) : Type :=
| Done (a : A)
| Failed (e : PortError).
Arguments Done {A} a.
Arguments Failed {A} e.

(** Modelled from the spec: the error taxonomy of section 7; the file that
    declares [SdkError] and [CODES] is not part of the sources.  An error
    with no code is the validation error, a numeric code is a chain error,
    a rejection of a collaborator is the network error. *)
Inductive ErrorClass : Type :=
| ValidationError
| ConfigError
| NotFoundError
| AuthError
| TypeError
| InternalError
| ChainError
| NetworkError.

Definition classify (e : Exn) : ErrorClass :=
  match e with
  | Propagated _ => NetworkError
  | Thrown e =>
      match code e with
      | CodeDefault => ValidationError
      | Panic => ConfigError
      | KeyNotFound => NotFoundError
      | InvalidPassword => AuthError
      | InvalidType => TypeError
      | Internal => InternalError
      | CodeOf _ => ChainError
      end
  end.

(** ** Data model *)

(** The declarations of [types] are not part of the sources; the records
    below have the fields the module reads and writes. *)

(** Modelled from the spec: the enum [types.PubkeyType], the public-key
    algorithm tag of section 3.  The module names the member [secp256k1],
    the default of [sign_signDoc]; the other members are left to a tag. *)
Inductive PubkeyType : Type := secp256k1 | algorithm (tag : string).

(** Modelled from the spec: the enum [types.BroadcastMode], one of Async,
    Sync and Commit (section 3); [broadcast] names [Commit] and [Sync]. *)
Inductive BroadcastMode : Type := Async | Sync | Commit.

(** Modelled from the spec: a coin, as the scenario of section 8 writes
    it. *)
Record Coin : Type := mkCoin { denom : string; amount : string }.

(** [types.BaseTx].  The module reads [from], [password],
    [account_number], [sequence], [pubkeyType] and [mode]; the gas, the
    fee and the memo of section 3 of the spec go to [newStdTx] unread. *)
Record BaseTx : Type := mkBaseTx {
  from : string;
  password : string;
  gas : option string;
  fee : option Coin;
  memo : option string;
  mode : option BroadcastMode;
  account_number : option string;
  sequence : option string;
  pubkeyType : option PubkeyType
}.

(** What [keyDAO.read] answers with. *)
Record Key : Type := mkKey { address : string; privateKey : string }.

(** [types.BaseAccount]: what the node answers a query for an account
    with.  [sign] tests the number and the sequence for truth and turns
    them into strings, so they are any scalar here. *)
Record BaseAccount : Type := mkBaseAccount {
  coins : list Coin;
  accountNumber : JsScalar;
  acc_sequence : JsScalar
}.

(** A tag of a delivered transaction: a key and a value. *)
Definition Tag : Type := (string * string)%type.

(** [check_tx] and [deliver_tx] of a commit response.  The codes of the
    node are unsigned numbers, so [N]; a response may leave the code out. *)
Record ResultTx : Type := mkResultTx {
  rt_code : option N;
  rt_log : string;
  rt_gas_wanted : option string;
  rt_gas_used : option string;
  rt_info : option string;
  rt_tags : option (list Tag)
}.

(** What [rpcClient.request] resolves to: the fields of
    [ResultBroadcastTx] and of [ResultBroadcastTxAsync] together, each
    possibly missing. *)
Record RpcResponse : Type := mkRpcResponse {
  r_hash : string;
  r_height : option Z;
  r_code : option N;
  r_log : string;
  check_tx : option ResultTx;
  deliver_tx : option ResultTx
}.

(** [types.TxResult], with the fields [newTxResult] gives it. *)
Record TxResult : Type := mkTxResult {
  hash : string;
  height : option Z;
  gas_wanted : option string;
  gas_used : option string;
  info : option string;
  tags : option (list Tag)
}.

(** Modelled from the spec: the sign document that [getSignDoc] returns,
    made of the account number, the chain id and the serialized body of
    the transaction (section 3). *)
Record SignDoc : Type := mkSignDoc {
  doc_account_number : option string;
  doc_chain_id : string;
  doc_body : bytes
}.

(** ** Calls to the collaborators *)

Inductive Event : Type :=
| KeyRead (name : string)
| KeyDecrypt (encrypted pass : string)
| QueryAccount (addr : string)
| AbciQuery (path addr : string)
| RpcRequest (method tx : string)
| DerivePublicKey (privKey : option string) (type : option PubkeyType)
| GenerateSignature (doc : bytes) (privKey : option string)
    (type : option PubkeyType)
| SetPubKey (pubKey : string) (seq : option string)
| GetSignDoc (account : option string) (chain : string)
| AddSignature (signature : string)
| ConsoleError (r : ResultTx).

Definition is_network (e : Event) : bool :=
  match e with
  | QueryAccount _ | AbciQuery _ _ | RpcRequest _ _ => true
  | _ => false
  end.

Definition is_keystore (e : Event) : bool :=
  match e with
  | KeyRead _ | KeyDecrypt _ _ => true
  | _ => false
  end.


Definition network_calls (t : list Event) : list Event := filter is_network t.


(** ** The monad of the module: trace, transaction object, exception *)

Record Run (S A : Type) : Type := mkRun {
  trace : list Event;
  final : S;
  outcome : Res A
}.

Definition M (S A : Type) : Type := S -> Run S A.

Definition mret {S A} (a : A) : M S A := fun s => mkRun [] s (Ok a).

Definition mbind {S A B} (m : M S A) (f : A -> M S B) : M S B :=
  fun s =>
    let r := m s in
    match outcome r with
    | Ok a =>
        let r' := f a (final r) in
        mkRun (trace r ++ trace r') (final r') (outcome r')
    | Raise e => mkRun (trace r) (final r) (Raise e)
    end.

#[global] Instance Monad_M {S} : Monad (M S) :=
  {| ret := @mret S; bind := @mbind S |}.

Definition throw {S A} (m : string) (c : Code) : M S A :=
  fun s => mkRun [] s (Raise (Thrown (mkSdkError m c))).

Definition emit {S} (e : Event) : M S unit := fun s => mkRun [e] s (Ok tt).

Definition settle {S A} (r : PortRes A) : M S A :=
  fun s =>
    match r with
    | Done a => mkRun [] s (Ok a)
    | Failed e => mkRun [] s (Raise (Propagated e))
    end.

(** A call to a collaborator: the call is traced, then its answer is the
    value or the exception of the caller. *)
Definition call {S A} (e : Event) (r : PortRes A) : M S A :=
  emit e ;; settle r.

Definition get {S} : M S S := fun s => mkRun [] s (Ok s).

(** A method of the transaction object that updates it in place. *)
Definition update {S} (f : S -> PortRes S) : M S unit :=
  fun s =>
    match f s with
    | Done s' => mkRun [] s' (Ok tt)
    | Failed e => mkRun [] s (Raise (Propagated e))
    end.

(** A method of the transaction object that only reads it. *)
Definition query {S A} (f : S -> PortRes A) : M S A :=
  fun s => settle (f s) s.

(** ** Messages *)

(** The case labels of the [switch] in [createMsg], members of the enum
    [types.TxType]. *)
Inductive TxType : Type :=
| MsgSend | MsgMultiSend
| MsgDelegate | MsgUndelegate | MsgBeginRedelegate
| MsgWithdrawDelegatorReward | MsgSetWithdrawAddress
| MsgWithdrawValidatorCommission | MsgFundCommunityPool
| MsgIssueToken | MsgEditToken | MsgMintToken | MsgTransferTokenOwner
| MsgAddLiquidity | MsgRemoveLiquidity | MsgSwapOrder
| MsgIssueDenom | MsgMintNFT | MsgEditNFT | MsgTransferNFT | MsgBurnNFT.

(** The message classes of [types] that [createMsg] instantiates. *)
Inductive MsgClass : Type :=
| CMsgSend | CMsgMultiSend
| CMsgDelegate | CMsgUndelegate | CMsgRedelegate
| CMsgWithdrawDelegatorReward | CMsgSetWithdrawAddress
| CMsgWithdrawValidatorCommission | CMsgFundCommunityPool
| CMsgIssueToken | CMsgEditToken | CMsgMintToken | CMsgTransferTokenOwner
| CMsgIssueDenom | CMsgMintNFT | CMsgEditNFT | CMsgTransferNFT | CMsgBurnNFT.

(** What [createMsg] returns: [new types.C(value)], or the object [{}] the
    variable [msg] is initialised with. *)
Inductive Msg (V : Type) : Type :=
| New (c : MsgClass) (value : V)
| EmptyObject.
Arguments New {V} c value.
Arguments EmptyObject {V}.

Record TxMsg (V : Type) : Type := mkTxMsg { type : string; value : V }.

(** The labels in the order of the source; a [switch] takes the first
    label that is strictly equal to the scrutinee. *)
Definition case_labels : list TxType :=
  [ MsgSend; MsgMultiSend;
    MsgDelegate; MsgUndelegate; MsgBeginRedelegate;
    MsgWithdrawDelegatorReward; MsgSetWithdrawAddress;
    MsgWithdrawValidatorCommission; MsgFundCommunityPool;
    MsgIssueToken; MsgEditToken; MsgMintToken; MsgTransferTokenOwner;
    MsgAddLiquidity; MsgRemoveLiquidity; MsgSwapOrder;
    MsgIssueDenom; MsgMintNFT; MsgEditNFT; MsgTransferNFT; MsgBurnNFT ].

(** The body of each case. *)
Definition case_body {V} (k : TxType) (v : V) : Msg V :=
  match k with
  | MsgSend => New CMsgSend v
  | MsgMultiSend => New CMsgMultiSend v
  | MsgDelegate => New CMsgDelegate v
  | MsgUndelegate => New CMsgUndelegate v
  | MsgBeginRedelegate => New CMsgRedelegate v
  | MsgWithdrawDelegatorReward => New CMsgWithdrawDelegatorReward v
  | MsgSetWithdrawAddress => New CMsgSetWithdrawAddress v
  | MsgWithdrawValidatorCommission => New CMsgWithdrawValidatorCommission v
  | MsgFundCommunityPool => New CMsgFundCommunityPool v
  | MsgIssueToken => New CMsgIssueToken v
  | MsgEditToken => New CMsgEditToken v
  | MsgMintToken => New CMsgMintToken v
  | MsgTransferTokenOwner => New CMsgTransferTokenOwner v
  | MsgAddLiquidity => EmptyObject
  | MsgRemoveLiquidity => EmptyObject
  | MsgSwapOrder => EmptyObject
  | MsgIssueDenom => New CMsgIssueDenom v
  | MsgMintNFT => New CMsgMintNFT v
  | MsgEditNFT => New CMsgEditNFT v
  | MsgTransferNFT => New CMsgTransferNFT v
  | MsgBurnNFT => New CMsgBurnNFT v
  end.


Definition is_coinswap (k : TxType) : bool :=
  match k with
  | MsgAddLiquidity | MsgRemoveLiquidity | MsgSwapOrder => true
  | _ => false
  end.

(** Whether an object is an instance of one of the message classes. *)
Definition is_typed {V} (m : Msg V) : bool :=
  match m with
  | New _ _ => true
  | EmptyObject => false
  end.

(** ** The collaborators *)

(** The key store of the host application.  [read] answers with a key
    record or with nothing, [decrypt] with the key, with nothing or with
    the empty string; either may throw instead.  [decrypt] is an optional
    member of the interface. *)
Record KeyDAO : Type := mkKeyDAO {
  read : string -> PortRes (option Key);
  decrypt : option (string -> string -> PortRes (option string))
}.

(** The two helpers of [Crypto] the module calls.  The key is passed as
    the key store gave it, which [sign_signDoc] does not test, and the
    algorithm as [baseTx] has it; either helper may throw. *)
Record CryptoLib : Type := mkCryptoLib {
  getPublicKeyFromPrivateKey :
    option string -> option PubkeyType -> PortRes string;
  generateSignature :
    bytes -> option string -> option PubkeyType -> PortRes string
}.

(** The two helpers of [Utils] the module calls. *)
Record UtilsLib : Type := mkUtilsLib {
  bytesToBase64 : bytes -> string;
  decodeTags : list Tag -> list Tag
}.

(** The methods of [types.ProtoTx] the module calls, over any
    representation [T] of the object. *)
Record ProtoTxOps (T : Type) : Type := mkProtoTxOps {
  hasPubKey : T -> bool;
  setPubKey : string -> option string -> T -> PortRes T;
  getSignDoc : option string -> string -> T -> PortRes SignDoc;
  serializeBinary : SignDoc -> bytes;
  addSignature : string -> T -> PortRes T;
  getData : T -> bytes
}.

(** The client the module is constructed with: the configuration, the
    [auth] module and the connection to the node.  A request to the node
    resolves to an answer or is rejected.  [V] is the type of the values
    of the messages. *)
Record Client (T V : Type) : Type := mkClient {
  chainId : string;
  keyDAO : KeyDAO;
  auth_queryAccount : string -> PortRes BaseAccount;
  auth_newStdTx : list (Msg V) -> BaseTx -> T;
  rpc_request : string -> string -> PortRes RpcResponse;
  rpc_abciQuery_account : string -> string -> PortRes BaseAccount;
  rpc_abciQuery_coins : string -> string -> PortRes (list Coin)
}.

(** Modelled from the spec: the method names of [types.RpcMethods], which
    the sources do not declare; section 6 lists them, and the comment in
    [broadcastTx] names the first two. *)
Module RpcMethods.
Definition BroadcastTxSync : string := "broadcast_tx_sync".
Definition BroadcastTxAsync : string := "broadcast_tx_async".
Definition BroadcastTxCommit : string := "broadcast_tx_commit".
End RpcMethods.

(** [c > 0] on a code that may be missing. *)
Definition positive_code (c : option N) : bool :=
  match c with
  | Some n => N.ltb 0 n
  | None => false
  end.

(** The code of [new SdkError(log, c)]: an argument that is [undefined]
    leaves the default of the constructor. *)
Definition code_of (c : option N) : Code :=
  match c with
  | Some n => CodeOf n
  | None => CodeDefault
  end.

(** ** The module *)

Definition IO (A : Type) : Type := M unit A.

(** Runs a computation on a transaction object of its own. *)
Definition on_object {T A} (tx : T) (m : M T A) : IO A :=
  fun _ => let r := m tx in mkRun (trace r) tt (outcome r).

Definition of_res {S A} (r : Res A) : M S A := fun s => mkRun [] s r.

(** [o?.f] *)
Definition chain {A B} (o : option A) (f : A -> option B) : option B :=
  match o with
  | Some a => f a
  | None => None
  end.

(** [s || d] on strings. *)
Definition or_str (s d : string) : string :=
  if String.eqb s "" then d else s.

(** [xs.map(f)] where [f] may throw: the first exception ends the map. *)
Fixpoint map_res {A B} (f : A -> Res B) (xs : list A) : Res (list B) :=
  match xs with
  | [] => Ok []
  | x :: xs' =>
      match f x with
      | Raise e => Raise e
      | Ok y =>
          match map_res f xs' with
          | Raise e => Raise e
          | Ok ys => Ok (y :: ys)
          end
      end
  end.

(** [!baseTx.account_number || !baseTx.sequence] *)
Definition needs_account (baseTx : BaseTx) : bool :=
  negb (truthy_str (account_number baseTx))
  || negb (truthy_str (sequence baseTx)).

Section Tx.

Variables T V : Type.
Variable ops : ProtoTxOps T.
Variable Crypto : CryptoLib.
Variable Utils : UtilsLib.
(** The string of each member of the enum [types.TxType]. *)
Variable TxType_value : TxType -> string.
Variable client : Client T V.

(** [switch (txMsg.type)]: the first label equal to the tag, if any. *)
Definition switch (tag : string) : option TxType :=
  find (fun k => String.eqb tag (TxType_value k)) case_labels.

Definition createMsg (txMsg : TxMsg V) : Res (Msg V) :=
  match switch (type txMsg) with
  | Some k => Ok (case_body k (value txMsg))
  | None => Raise (Thrown (mkSdkError "not exist tx type" InvalidType))
  end.

Definition buildTx (msgs : list (TxMsg V)) (baseTx : BaseTx) : Res T :=
  match map_res createMsg msgs with
  | Raise e => Raise e
  | Ok msgList => Ok (auth_newStdTx client msgList baseTx)
  end.

(** Lines 133 to 140 of [sign]: the account number and the sequence the
    transaction is signed with. *)
Definition resolve (baseTx : BaseTx) (keyObj : Key) : M T (string * string) :=
  let accountNumber0 := nullish (account_number baseTx) "0" in
  let sequence0 := or_else (sequence baseTx) "0" in
  if needs_account baseTx
  then
    account <- call (QueryAccount (address keyObj))
                    (auth_queryAccount client (address keyObj)) ;;
    ret (if truthy (accountNumber account)
         then or_str (String_ (accountNumber account)) "0"
         else accountNumber0,
         if truthy (acc_sequence account)
         then or_str (String_ (acc_sequence account)) "0"
         else sequence0)
  else ret (accountNumber0, sequence0).

(** Lines 146 to 152 of [sign], with the decrypted key in hand. *)
Definition attach (baseTx : BaseTx) (privKey : option string)
    (accountNumber1 sequence1 : string) : M T T :=
  has <- query (fun tx => Done (hasPubKey ops tx)) ;;
  (if negb has
   then
     pubKey <- call (DerivePublicKey privKey (pubkeyType baseTx))
                    (getPublicKeyFromPrivateKey Crypto privKey
                       (pubkeyType baseTx)) ;;
     emit (SetPubKey pubKey (or_undefined sequence1)) ;;
     update (setPubKey ops pubKey (or_undefined sequence1))
   else ret tt) ;;
  emit (GetSignDoc (or_undefined accountNumber1) (chainId client)) ;;
  doc <- query (getSignDoc ops (or_undefined accountNumber1)
                  (chainId client)) ;;
  signature <- call (GenerateSignature (serializeBinary ops doc) privKey
                       (pubkeyType baseTx))
                    (generateSignature Crypto (serializeBinary ops doc)
                       privKey (pubkeyType baseTx)) ;;
  emit (AddSignature signature) ;;
  update (addSignature ops signature) ;;
  get.

Definition sign (baseTx : BaseTx) : M T T :=
  if is_empty (from baseTx)
  then throw "baseTx.from of the key can not be empty" CodeDefault
  else if is_empty (password baseTx)
  then throw "baseTx.password of the key can not be empty" CodeDefault
  else
    match decrypt (keyDAO client) with
    | None => throw "Decrypt method of KeyDAO not implemented" Panic
    | Some decrypt_ =>
        found <- call (KeyRead (from baseTx))
                      (read (keyDAO client) (from baseTx)) ;;
        match found with
        | None =>
            throw ("Key with name '" ++ from baseTx ++ "' not found")
                  KeyNotFound
        | Some keyObj =>
            nonce <- resolve baseTx keyObj ;;
            privKey <- call (KeyDecrypt (privateKey keyObj) (password baseTx))
                            (decrypt_ (privateKey keyObj) (password baseTx)) ;;
            if negb (truthy_str privKey)
            then throw "decrypto the private key error" InvalidPassword
            else attach baseTx privKey (fst nonce) (snd nonce)
        end
    end.

(** [type: types.PubkeyType = types.PubkeyType.secp256k1] *)
Definition default_type (type : option PubkeyType) : option PubkeyType :=
  match type with
  | None => Some secp256k1
  | Some t => Some t
  end.

Definition sign_signDoc (signDoc : bytes) (name : string)
    (password : string) (type : option PubkeyType) : IO string :=
  if is_empty name
  then throw "Name of the key can not be empty" CodeDefault
  else if is_empty password
  then throw "Password of the key can not be empty" CodeDefault
  else
    match decrypt (keyDAO client) with
    | None => throw "Decrypt method of KeyDAO not implemented" CodeDefault
    | Some decrypt_ =>
        found <- call (KeyRead name) (read (keyDAO client) name) ;;
        match found with
        | None =>
            throw ("Key with name '" ++ name ++ "' not found") KeyNotFound
        | Some keyObj =>
            privKey <- call (KeyDecrypt (privateKey keyObj) password)
                            (decrypt_ (privateKey keyObj) password) ;;
            call (GenerateSignature signDoc privKey (default_type type))
                 (generateSignature Crypto signDoc privKey
                    (default_type type))
        end
    end.

Definition newTxResult (hash : string) (height : option Z)
    (deliverTx : option ResultTx) : TxResult :=
  {| hash := hash;
     height := height;
     gas_wanted := chain deliverTx rt_gas_wanted;
     gas_used := chain deliverTx rt_gas_used;
     info := chain deliverTx rt_info;
     tags := chain deliverTx rt_tags |}.

(** [is.not.inArray(method, [BroadcastTxSync, BroadcastTxAsync])] *)
Definition not_inArray (method : string) : bool :=
  negb (String.eqb method RpcMethods.BroadcastTxSync
        || String.eqb method RpcMethods.BroadcastTxAsync).

Definition broadcastTx (txBytes : bytes) (method : string) : IO RpcResponse :=
  if not_inArray method
  then throw ("Unsupported broadcast method: " ++ method) Internal
  else
    response <- call (RpcRequest method (bytesToBase64 Utils txBytes))
                     (rpc_request client method
                        (bytesToBase64 Utils txBytes)) ;;
    if positive_code (r_code response)
    then throw (r_log response) (code_of (r_code response))
    else ret response.

Definition broadcastTxAsync (txBytes : bytes) : IO RpcResponse :=
  broadcastTx txBytes RpcMethods.BroadcastTxAsync.

Definition broadcastTxSync (txBytes : bytes) : IO RpcResponse :=
  broadcastTx txBytes RpcMethods.BroadcastTxSync.

(** [response.deliver_tx.tags = Utils.decodeTags(response.deliver_tx.tags)]
    when both are there. *)
Definition decode_deliver (d : ResultTx) : ResultTx :=
  match rt_tags d with
  | Some ts =>
      {| rt_code := rt_code d;
         rt_log := rt_log d;
         rt_gas_wanted := rt_gas_wanted d;
         rt_gas_used := rt_gas_used d;
         rt_info := rt_info d;
         rt_tags := Some (decodeTags Utils ts) |}
  | None => d
  end.

(** The [then] handler of [broadcastTxCommit]. *)
Definition commit_result (response : RpcResponse) : IO TxResult :=
  (match check_tx response with
   | Some c =>
       if positive_code (rt_code c)
       then emit (ConsoleError c) ;; throw (rt_log c) (code_of (rt_code c))
       else ret tt
   | None => ret tt
   end) ;;
  (match deliver_tx response with
   | Some d =>
       if positive_code (rt_code d)
       then emit (ConsoleError d) ;; throw (rt_log d) (code_of (rt_code d))
       else ret tt
   | None => ret tt
   end) ;;
  let deliver := option_map decode_deliver (deliver_tx response) in
  ret {| hash := r_hash response;
         height := r_height response;
         gas_wanted := chain deliver rt_gas_wanted;
         gas_used := chain deliver rt_gas_used;
         info := chain deliver rt_info;
         tags := chain deliver rt_tags |}.

Definition broadcastTxCommit (txBytes : bytes) : IO TxResult :=
  response <- call (RpcRequest RpcMethods.BroadcastTxCommit
                      (bytesToBase64 Utils txBytes))
                   (rpc_request client RpcMethods.BroadcastTxCommit
                      (bytesToBase64 Utils txBytes)) ;;
  commit_result response.

Definition broadcast (signedTx : T) (mode : option BroadcastMode)
  : IO TxResult :=
  let txBytes := getData ops signedTx in
  match mode with
  | Some Commit => broadcastTxCommit txBytes
  | Some Sync =>
      response <- broadcastTxSync txBytes ;;
      ret (newTxResult (r_hash response) None None)
  | _ =>
      response <- broadcastTxAsync txBytes ;;
      ret (newTxResult (r_hash response) None None)
  end.

Definition buildAndSend (msgs : list (TxMsg V)) (baseTx : BaseTx)
  : IO TxResult :=
  unsignedTx <- of_res (buildTx msgs baseTx) ;;
  signedTx <- on_object unsignedTx (sign baseTx) ;;
  broadcast signedTx (mode baseTx).

(** [Bank.queryAccount]: [Promise.all] over two queries, both sent before
    either answer is looked at; the first rejection is the rejection of
    the whole. *)
Definition queryAccount (address : string) : IO BaseAccount :=
  emit (AbciQuery "custom/auth/account" address) ;;
  emit (AbciQuery "custom/bank/all_balances" address) ;;
  acc <- settle (rpc_abciQuery_account client "custom/auth/account"
                   address) ;;
  bal <- settle (rpc_abciQuery_coins client "custom/bank/all_balances"
                   address) ;;
  ret {| coins := bal;
         accountNumber := accountNumber acc;
         acc_sequence := acc_sequence acc |}.

End Tx.

(** ** The transaction object *)

(** Modelled from the spec: [types.ProtoTx], whose file is not part of the
    sources.  Section 3: an unsigned transaction is an ordered sequence of
    messages, a fee and a memo, with no public key and no signature; the
    signer attaches one public key, together with the sequence, and one
    signature; the sign document is made of the account number, the chain
    id and the serialized body.  The public key is kept with its sequence,
    the signatures in the order they were attached. *)
Record ProtoTx (V : Type) : Type := mkProtoTx {
  tx_msgs : list (Msg V);
  tx_gas : option string;
  tx_fee : option Coin;
  tx_memo : option string;
  tx_signer : option (string * option string);
  tx_signatures : list string
}.

(** Modelled from the spec: the wire encodings of the body, of the sign
    document and of the whole transaction, which section 1 of the spec
    leaves to the protobuf layer. *)
Record Codec (V : Type) : Type := mkCodec {
  encode_body :
    list (Msg V) -> option string -> option Coin -> option string -> bytes;
  encode_doc : SignDoc -> bytes;
  encode_tx : ProtoTx V -> bytes
}.

Section ProtoTxModel.

Variable V : Type.
Variable codec : Codec V.

(** Modelled from the spec: the serialized body, which the public key and
    the signatures are no part of. *)
Definition body_bytes (tx : ProtoTx V) : bytes :=
  encode_body codec (tx_msgs tx) (tx_gas tx) (tx_fee tx) (tx_memo tx).

(** Modelled from the spec: [hasPubKey], whether a public key is
    attached. *)
Definition ProtoTx_hasPubKey (tx : ProtoTx V) : bool :=
  match tx_signer tx with
  | Some _ => true
  | None => false
  end.

(** Modelled from the spec: [setPubKey], step 6 of section 4.4; the public
    key is attached together with the sequence. *)
Definition ProtoTx_setPubKey (pubKey : string) (seq : option string)
    (tx : ProtoTx V) : PortRes (ProtoTx V) :=
  Done {| tx_msgs := tx_msgs tx;
          tx_gas := tx_gas tx;
          tx_fee := tx_fee tx;
          tx_memo := tx_memo tx;
          tx_signer := Some (pubKey, seq);
          tx_signatures := tx_signatures tx |}.

(** Modelled from the spec: [getSignDoc], step 7 of section 4.4. *)
Definition ProtoTx_getSignDoc (account : option string) (chain : string)
    (tx : ProtoTx V) : PortRes SignDoc :=
  Done {| doc_account_number := account;
          doc_chain_id := chain;
          doc_body := body_bytes tx |}.

(** Modelled from the spec: [addSignature], step 8 of section 4.4; the
    signature is attached after those that are there. *)
Definition ProtoTx_addSignature (signature : string) (tx : ProtoTx V)
  : PortRes (ProtoTx V) :=
  Done {| tx_msgs := tx_msgs tx;
          tx_gas := tx_gas tx;
          tx_fee := tx_fee tx;
          tx_memo := tx_memo tx;
          tx_signer := tx_signer tx;
          tx_signatures := tx_signatures tx ++ [signature] |}.

(** Modelled from the spec: the methods of [types.ProtoTx] together. *)
Definition ProtoTx_ops : ProtoTxOps (ProtoTx V) :=
  {| hasPubKey := ProtoTx_hasPubKey;
     setPubKey := ProtoTx_setPubKey;
     getSignDoc := ProtoTx_getSignDoc;
     serializeBinary := encode_doc codec;
     addSignature := ProtoTx_addSignature;
     getData := encode_tx codec |}.

(** Modelled from the spec: [auth.newStdTx], section 4.2; the messages in
    order with the fee and the memo of [baseTx], nothing attached. *)
Definition newStdTx (msgList : list (Msg V)) (baseTx : BaseTx) : ProtoTx V :=
  {| tx_msgs := msgList;
     tx_gas := gas baseTx;
     tx_fee := fee baseTx;
     tx_memo := memo baseTx;
     tx_signer := None;
     tx_signatures := [] |}.


End ProtoTxModel.

(** ** A concrete client *)

Module Sample.

(** Modelled from the spec: the strings of [types.TxType], which the
    sources do not declare; the scenario of section 8 writes the tag of a
    kind as the name of the kind. *)
Definition TxType_name (k : TxType) : string :=
  match k with
  | MsgSend => "MsgSend"
  | MsgMultiSend => "MsgMultiSend"
  | MsgDelegate => "MsgDelegate"
  | MsgUndelegate => "MsgUndelegate"
  | MsgBeginRedelegate => "MsgBeginRedelegate"
  | MsgWithdrawDelegatorReward => "MsgWithdrawDelegatorReward"
  | MsgSetWithdrawAddress => "MsgSetWithdrawAddress"
  | MsgWithdrawValidatorCommission => "MsgWithdrawValidatorCommission"
  | MsgFundCommunityPool => "MsgFundCommunityPool"
  | MsgIssueToken => "MsgIssueToken"
  | MsgEditToken => "MsgEditToken"
  | MsgMintToken => "MsgMintToken"
  | MsgTransferTokenOwner => "MsgTransferTokenOwner"
  | MsgAddLiquidity => "MsgAddLiquidity"
  | MsgRemoveLiquidity => "MsgRemoveLiquidity"
  | MsgSwapOrder => "MsgSwapOrder"
  | MsgIssueDenom => "MsgIssueDenom"
  | MsgMintNFT => "MsgMintNFT"
  | MsgEditNFT => "MsgEditNFT"
  | MsgTransferNFT => "MsgTransferNFT"
  | MsgBurnNFT => "MsgBurnNFT"
  end.

(** A key store with the one key [alice], whose password is [pw]. *)
Definition alice : Key := {| address := "iaa1alice"; privateKey := "sealed" |}.

Definition store_read (name : string) : PortRes (option Key) :=
  Done (if String.eqb name "alice" then Some alice else None).

Definition store_decrypt (encrypted pass : string)
  : PortRes (option string) :=
  Done (if String.eqb encrypted "sealed" && String.eqb pass "pw"
        then Some "c0ffee"
        else None).

Definition store : KeyDAO :=
  {| read := store_read; decrypt := Some store_decrypt |}.

(** A key store whose [decrypt] answers with the empty string. *)
Definition blank_store : KeyDAO :=
  {| read := store_read; decrypt := Some (fun _ _ => Done (Some "")) |}.

Definition crypto : CryptoLib :=
  {| getPublicKeyFromPrivateKey := fun k _ => Done "pub";
     generateSignature := fun _ _ _ => Done "sig" |}.

Definition utils : UtilsLib :=
  {| bytesToBase64 := fun _ => "dHg="; decodeTags := fun ts => ts |}.

Definition codec : Codec string :=
  {| encode_body := fun _ _ _ _ => [];
     encode_doc := fun _ => [];
     encode_tx := fun _ => [] |}.

(** The account of [alice] on the chain: number 3, nothing sent yet. *)
Definition account : BaseAccount :=
  {| coins := [];
     accountNumber := JNumber 3;
     acc_sequence := JNumber 0 |}.

(** A node that accepts every transaction. *)
Definition accepted : RpcResponse :=
  {| r_hash := "AB12";
     r_height := Some 7%Z;
     r_code := None;
     r_log := "";
     check_tx := None;
     deliver_tx := None |}.

(** A node that turns every transaction down in the check phase. *)
Definition refused_check : ResultTx :=
  {| rt_code := Some 4%N;
     rt_log := "signature verification failed";
     rt_gas_wanted := None;
     rt_gas_used := None;
     rt_info := None;
     rt_tags := None |}.

Definition delivered : ResultTx :=
  {| rt_code := Some 9%N;
     rt_log := "delivery";
     rt_gas_wanted := Some "200000";
     rt_gas_used := Some "51234";
     rt_info := None;
     rt_tags := Some [("YWN0aW9u", "c2VuZA==")] |}.

Definition refused : RpcResponse :=
  {| r_hash := "AB12";
     r_height := Some 7%Z;
     r_code := Some 4%N;
     r_log := "signature verification failed";
     check_tx := Some refused_check;
     deliver_tx := Some delivered |}.

Definition node (dao : KeyDAO) (answer : RpcResponse)
  : Client (ProtoTx string) string :=
  {| chainId := "test-1";
     keyDAO := dao;
     auth_queryAccount := fun _ => Done account;
     auth_newStdTx := @newStdTx string;
     rpc_request := fun _ _ => Done answer;
     rpc_abciQuery_account := fun _ _ => Done account;
     rpc_abciQuery_coins := fun _ _ => Done [] |}.

Definition ops : ProtoTxOps (ProtoTx string) := ProtoTx_ops codec.

Definition base (name pass : string) (acct seq : option string) : BaseTx :=
  {| from := name;
     password := pass;
     gas := None;
     fee := None;
     memo := None;
     mode := None;
     account_number := acct;
     sequence := seq;
     pubkeyType := None |}.

Definition unsigned : ProtoTx string :=
  newStdTx [New CMsgSend "10stake"] (base "alice" "pw" None None).


End Sample.

(** ** Predicates on runs *)

(** An optional string that is not there, or is the empty string. *)
Definition missing (o : option string) : Prop := o = None \/ o = Some "".

(** Every call of the computation is one of the calls [P] admits. *)
Definition calls_only {S A} (P : Event -> Prop) (m : M S A) : Prop :=
  forall s e, In e (trace (m s)) -> P e.

(** Every error the computation throws itself is one [P] admits; the
    rejections of the collaborators are not counted. *)
Definition throws_only {S A} (P : SdkError -> Prop) (m : M S A) : Prop :=
  forall s e, outcome (m s) = Raise (Thrown e) -> P e.

(** Neither the node nor the key store. *)
Definition local_call (e : Event) : Prop :=
  is_network e = false /\ is_keystore e = false.

Definition no_error (e : SdkError) : Prop := False.

(** The codes [sign] throws with. *)
Definition sign_code (e : SdkError) : Prop :=
  code e = CodeDefault \/ code e = Panic \/ code e = KeyNotFound
  \/ code e = InvalidPassword.

(** The codes [broadcast] throws with. *)
Definition broadcast_code (e : SdkError) : Prop :=
  code e = Internal \/ exists n, code e = CodeOf n.

(** A phase of a commit response that reports a code above zero. *)
Definition phase_failed (o : option ResultTx) : bool :=
  match o with
  | Some r => positive_code (rt_code r)
  | None => false
  end.

(** The method [broadcast] submits with, for the two modes that do not
    wait for the block. *)
Definition submit_method (mode : BroadcastMode) : string :=
  match mode with
  | Sync => RpcMethods.BroadcastTxSync
  | _ => RpcMethods.BroadcastTxAsync
  end.

(** ** The runs of [sign] *)

(** The calls to the node that [sign] makes before it decrypts the key. *)
Definition account_calls (baseTx : BaseTx) (keyObj : Key) : list Event :=
  if needs_account baseTx then [QueryAccount (address keyObj)] else [].

Section SignRuns.

Variables T V : Type.
Variable ops : ProtoTxOps T.
Variable Crypto : CryptoLib.
Variable client : Client T V.

(** The ways [sign] ends before it signs, and the last, in which it goes
    on to attach the key and the signature. *)
Inductive SignRun (baseTx : BaseTx) (tx : T) : Run T T -> Prop :=
| NoCredentials m :
    from baseTx = "" \/ password baseTx = "" ->
    SignRun baseTx tx (mkRun [] tx (Raise (Thrown (mkSdkError m CodeDefault))))
| NoDecrypt m :
    decrypt (keyDAO client) = None ->
    SignRun baseTx tx (mkRun [] tx (Raise (Thrown (mkSdkError m Panic))))
| ReadFailed e :
    read (keyDAO client) (from baseTx) = Failed e ->
    SignRun baseTx tx
      (mkRun [KeyRead (from baseTx)] tx (Raise (Propagated e)))
| NoKey m :
    read (keyDAO client) (from baseTx) = Done None ->
    SignRun baseTx tx
      (mkRun [KeyRead (from baseTx)] tx
         (Raise (Thrown (mkSdkError m KeyNotFound))))
| NoAccount keyObj e :
    read (keyDAO client) (from baseTx) = Done (Some keyObj) ->
    needs_account baseTx = true ->
    SignRun baseTx tx
      (mkRun [KeyRead (from baseTx); QueryAccount (address keyObj)] tx
         (Raise (Propagated e)))
| DecryptFailed keyObj e q :
    read (keyDAO client) (from baseTx) = Done (Some keyObj) ->
    q = account_calls baseTx keyObj ->
    SignRun baseTx tx
      (mkRun (KeyRead (from baseTx)
              :: q
              ++ [KeyDecrypt (privateKey keyObj) (password baseTx)]) tx
         (Raise (Propagated e)))
| NoPrivateKey keyObj m q :
    read (keyDAO client) (from baseTx) = Done (Some keyObj) ->
    q = account_calls baseTx keyObj ->
    SignRun baseTx tx
      (mkRun (KeyRead (from baseTx)
              :: q
              ++ [KeyDecrypt (privateKey keyObj) (password baseTx)]) tx
         (Raise (Thrown (mkSdkError m InvalidPassword))))
| Attached keyObj k a s q :
    read (keyDAO client) (from baseTx) = Done (Some keyObj) ->
    q = account_calls baseTx keyObj ->
    SignRun baseTx tx
      (mkRun (KeyRead (from baseTx)
              :: q
              ++ KeyDecrypt (privateKey keyObj) (password baseTx)
                 :: trace (attach ops Crypto client baseTx k a s tx))
         (final (attach ops Crypto client baseTx k a s tx))
         (outcome (attach ops Crypto client baseTx k a s tx))).

End SignRuns.

(** ** The bank module *)

(** An input or an output of a transfer between several parties: the
    fields [subscribeSendTx] reads and [multiSend] writes. *)
Record Input : Type := mkInput { in_address : string; in_coins : list Coin }.

(** The values of the two messages the bank module builds. *)
Inductive BankValue : Type :=
| SendValue (from_address to_address : string) (amount : list Coin)
| MultiSendValue (inputs outputs : list Input).

(** What [send] and [multiSend] use beside the client of the [Tx] module:
    [Crypto.checkAddress], the prefix [config.bech32Prefix.AccAddr] and
    [client.keys.show], which may throw. *)
Record BankPorts : Type := mkBankPorts {
  checkAddress : string -> string -> bool;
  AccAddr : string;
  keys_show : string -> PortRes string
}.

Section Bank.

Variable T : Type.
Variable ops : ProtoTxOps T.
Variable Crypto : CryptoLib.
Variable Utils : UtilsLib.
Variable TxType_value : TxType -> string.
Variable client : Client T BankValue.
Variable ports : BankPorts.

Definition send (to : string) (amount : list Coin) (baseTx : BaseTx)
  : IO TxResult :=
  if negb (checkAddress ports to (AccAddr ports))
  then throw "Invalid bech32 address" CodeDefault
  else
    from_ <- settle (keys_show ports (from baseTx)) ;;
    buildAndSend ops Crypto Utils TxType_value client
      [mkTxMsg (TxType_value MsgSend) (SendValue from_ to amount)] baseTx.

Definition multiSend (to : string) (amount : list Coin) (baseTx : BaseTx)
  : IO TxResult :=
  if negb (checkAddress ports to (AccAddr ports))
  then throw "Invalid bech32 address" CodeDefault
  else
    from_ <- settle (keys_show ports (from baseTx)) ;;
    let coins_ := amount in
    buildAndSend ops Crypto Utils TxType_value client
      [mkTxMsg (TxType_value MsgMultiSend)
         (MultiSendValue [mkInput from_ coins_] [mkInput to coins_])] baseTx.

End Bank.

(** *** Notifications of transfers *)

(** A message of a transaction that the event listener reports: its type
    and, of its value, the inputs and the outputs. *)
Record EventMsg : Type := mkEventMsg {
  em_type : string;
  em_inputs : list Input;
  em_outputs : list Input
}.

(** The data of a reported transaction, as far as the handler reads it. *)
Record EventData : Type := mkEventData {
  ed_height : string;
  ed_hash : string;
  ed_msgs : list EventMsg
}.

(** One call of the callback of the subscriber: with an error, or with
    the data of one transfer. *)
Inductive Notice : Type :=
| NoticeError (error : SdkError)
| NoticeSend (height hash from_ to_ : string) (amount : list Coin).

(** The inner [forEach] of the handler: one notice for every input, with
    the output at the same index; an index with no output ends it with
    the [TypeError] of reading [address] of [undefined], shown by [true];
    the notices made before stay made. *)
Fixpoint notify_inputs (height hash : string) (inputs outputs : list Input)
    (index : nat) : list Notice * bool :=
  match inputs with
  | [] => ([], false)
  | input :: rest =>
      match nth_error outputs index with
      | None => ([], true)
      | Some output =>
          let (notices, thrown) :=
            notify_inputs height hash rest outputs (S index) in
          (NoticeSend height hash (in_address input) (in_address output)
             (in_coins input) :: notices, thrown)
      end
  end.

(** [msg.type !== 'irishub/bank/Send'] negated. *)
Definition is_send (msg : EventMsg) : bool :=
  String.eqb (em_type msg) "irishub/bank/Send".

(** The outer [forEach] of the handler. *)
Fixpoint notify_msgs (height hash : string) (msgs : list EventMsg)
  : list Notice * bool :=
  match msgs with
  | [] => ([], false)
  | msg :: rest =>
      if is_send msg
      then
        let (notices, thrown) :=
          notify_inputs height hash (em_inputs msg) (em_outputs msg) 0 in
        if thrown
        then (notices, true)
        else
          let (notices', thrown') := notify_msgs height hash rest in
          ((notices ++ notices')%list, thrown')
      else notify_msgs height hash rest
  end.

(** The handler [subscribeSendTx] gives to the event listener: the calls
    of the callback it makes, in order, and whether it ends by throwing. *)
Definition send_handler (error : option SdkError) (data : option EventData)
  : list Notice * bool :=
  match error with
  | Some e => ([NoticeError e], false)
  | None =>
      match data with
      | None => ([], false)
      | Some d => notify_msgs (ed_height d) (ed_hash d) (ed_msgs d)
      end
  end.

(** The notices of one message when every input has its output. *)
Definition transfers (height hash : string) (msg : EventMsg) : list Notice :=
  map (fun io : Input * Input =>
         NoticeSend height hash (in_address (fst io)) (in_address (snd io))
           (in_coins (fst io)))
      (combine (em_inputs msg) (em_outputs msg)).

(** A message of the transfer type with more inputs than outputs. *)
Definition short_of_outputs (msg : EventMsg) : bool :=
  is_send msg && Nat.ltb (length (em_outputs msg)) (length (em_inputs msg)).

(** ** Predicates on the pipeline *)


(** The method [broadcast] submits with under each mode. *)
Definition mode_method (mode : option BroadcastMode) : string :=
  match mode with
  | Some Commit => RpcMethods.BroadcastTxCommit
  | Some Sync => RpcMethods.BroadcastTxSync
  | _ => RpcMethods.BroadcastTxAsync
  end.

(** The calls [sign_signDoc] can make for a key name, a password and a
    document. *)
Definition signDoc_call (signDoc : bytes) (name pass : string) (e : Event)
  : Prop :=
  match e with
  | KeyRead n => n = name
  | KeyDecrypt _ p => p = pass
  | GenerateSignature d _ _ => d = signDoc
  | _ => False
  end.

(** The calls that work on the key or on the transaction. *)
Definition is_signing (e : Event) : bool :=
  match e with
  | DerivePublicKey _ _ | GenerateSignature _ _ _ | SetPubKey _ _
  | GetSignDoc _ _ | AddSignature _ => true
  | _ => false
  end.

(** ** A client for the bank module *)

Module BankSample.

Definition codec : Codec BankValue :=
  {| encode_body := fun _ _ _ _ => [];
     encode_doc := fun _ => [];
     encode_tx := fun _ => [] |}.

Definition ops : ProtoTxOps (ProtoTx BankValue) := ProtoTx_ops codec.

(** A client with a key store, an answer to the query for the account and
    an answer to every request. *)
Definition node (dao : KeyDAO) (found : PortRes BaseAccount)
    (answer : PortRes RpcResponse) : Client (ProtoTx BankValue) BankValue :=
  {| chainId := "test-1";
     keyDAO := dao;
     auth_queryAccount := fun _ => found;
     auth_newStdTx := @newStdTx BankValue;
     rpc_request := fun _ _ => answer;
     rpc_abciQuery_account := fun _ _ => found;
     rpc_abciQuery_coins := fun _ _ => Done [mkCoin "stake" "10"] |}.

(** A key store with no [decrypt]. *)
Definition bare_store : KeyDAO :=
  {| read := Sample.store_read; decrypt := None |}.

(** A transaction that was delivered. *)
Definition committed : RpcResponse :=
  {| r_hash := "AB12";
     r_height := Some 7%Z;
     r_code := None;
     r_log := "";
     check_tx := Some (mkResultTx (Some 0%N) "" None None None None);
     deliver_tx :=
       Some (mkResultTx None "" (Some "200000") (Some "51234") None
               (Some [("YWN0aW9u", "c2VuZA==")])) |}.

(** Addresses are taken to be those that begin with the prefix. *)
Definition ports : BankPorts :=
  {| checkAddress := fun a p => String.prefix p a;
     AccAddr := "iaa";
     keys_show := fun name =>
       if String.eqb name "alice" then Done "iaa1alice"
       else Failed "no such key" |}.

Definition transfer : BankValue :=
  SendValue "iaa1alice" "iaa1bob" [mkCoin "stake" "10"].

Definition unsigned : ProtoTx BankValue :=
  newStdTx [New CMsgSend transfer] (Sample.base "alice" "pw" None None).

(** A crypto library that cannot sign. *)
Definition crypto_failing : CryptoLib :=
  {| getPublicKeyFromPrivateKey := fun k _ => Done "pub";
     generateSignature := fun _ _ _ => Failed "not implement" |}.

(** A reported transaction with one transfer of two inputs and outputs
    and one message of another type. *)
Definition reported : EventData :=
  {| ed_height := "12";
     ed_hash := "AB12";
     ed_msgs :=
       [ mkEventMsg "irishub/bank/Send"
           [mkInput "a1" [mkCoin "stake" "1"]; mkInput "a2" []]
           [mkInput "b1" []; mkInput "b2" []];
         mkEventMsg "irishub/stake/Delegate" [mkInput "a3" []] [] ] |}.

End BankSample.

(** * Properties *)

Unset Implicit Arguments.

(** ** Reasoning about runs *)

Ltac unfold_monad :=
  unfold call, emit, settle, throw, update, query, get, of_res, on_object;
  cbn [bind ret Monad_M mbind mret trace final outcome app].

Section Runs.

Variable S : Type.

Lemma trace_bind {A B} (m : M S A) (f : A -> M S B) (s : S) :
  trace (mbind m f s)
  = match outcome (m s) with
    | Ok a => (trace (m s) ++ trace (f a (final (m s))))%list
    | Raise _ => trace (m s)
    end.
Proof. unfold mbind. destruct (outcome (m s)); reflexivity. Qed.

Lemma outcome_bind {A B} (m : M S A) (f : A -> M S B) (s : S) :
  outcome (mbind m f s)
  = match outcome (m s) with
    | Ok a => outcome (f a (final (m s)))
    | Raise e => Raise e
    end.
Proof. unfold mbind. destruct (outcome (m s)); reflexivity. Qed.

Lemma bind_emit {B} (ev : Event) (f : unit -> M S B) (s : S) :
  mbind (emit ev) f s
  = mkRun (ev :: trace (f tt s)) (final (f tt s)) (outcome (f tt s)).
Proof. reflexivity. Qed.

Lemma bind_call_done {A B} (ev : Event) (r : PortRes A) (a : A)
    (f : A -> M S B) (s : S) :
  r = Done a ->
  mbind (call ev r) f s
  = mkRun (ev :: trace (f a s)) (final (f a s)) (outcome (f a s)).
Proof. intros ->. reflexivity. Qed.

Lemma bind_call_failed {A B} (ev : Event) (r : PortRes A) (e : PortError)
    (f : A -> M S B) (s : S) :
  r = Failed e -> mbind (call ev r) f s = mkRun [ev] s (Raise (Propagated e)).
Proof. intros ->. reflexivity. Qed.

Lemma bind_call_in {A B} (ev : Event) (r : PortRes A) (f : A -> M S B)
    (s : S) :
  In ev (trace (mbind (call ev r) f s)).
Proof. destruct r; now left. Qed.

Lemma bind_value {A B} (m : M S A) (f : A -> M S B) (s s' : S)
    (t : list Event) (a : A) :
  m s = mkRun t s' (Ok a) ->
  mbind m f s
  = mkRun (t ++ trace (f a s')) (final (f a s')) (outcome (f a s')).
Proof. unfold mbind. intros ->. reflexivity. Qed.

Lemma bind_raise {A B} (m : M S A) (f : A -> M S B) (s s' : S)
    (t : list Event) (e : Exn) :
  m s = mkRun t s' (Raise e) -> mbind m f s = mkRun t s' (Raise e).
Proof. unfold mbind. intros ->. reflexivity. Qed.

Lemma calls_only_bind P {A B} (m : M S A) (f : A -> M S B) :
  calls_only P m -> (forall a, calls_only P (f a)) ->
  calls_only P (mbind m f).
Proof.
  intros Hm Hf s e. rewrite trace_bind.
  destruct (outcome (m s)) as [a | x]; [rewrite in_app_iff | ].
  - intros [H | H]; [exact (Hm _ _ H) | exact (Hf _ _ _ H)].
  - apply Hm.
Qed.

Lemma throws_only_bind P {A B} (m : M S A) (f : A -> M S B) :
  throws_only P m -> (forall a, throws_only P (f a)) ->
  throws_only P (mbind m f).
Proof.
  intros Hm Hf s e. rewrite outcome_bind.
  destruct (outcome (m s)) as [a | x] eqn:E; [apply Hf | ].
  intros H. injection H as ->. exact (Hm _ _ E).
Qed.

Lemma calls_only_ret P {A} (a : A) : calls_only P (@mret S A a).
Proof. intros s e []. Qed.

Lemma calls_only_throw P {A} (m : string) (c : Code) :
  calls_only P (@throw S A m c).
Proof. intros s e []. Qed.

Lemma calls_only_get P : calls_only P (@get S).
Proof. intros s e []. Qed.

Lemma calls_only_settle P {A} (r : PortRes A) : calls_only P (@settle S A r).
Proof. intros s e. destruct r; intros []. Qed.

Lemma calls_only_query P {A} (f : S -> PortRes A) : calls_only P (query f).
Proof. intros s e. unfold query. destruct (f s); intros []. Qed.

Lemma calls_only_update P (f : S -> PortRes S) : calls_only P (update f).
Proof. intros s e. unfold update. destruct (f s); intros []. Qed.

Lemma calls_only_emit (P : Event -> Prop) (ev : Event) :
  P ev -> calls_only P (@emit S ev).
Proof. intros H s e [<- | []]. exact H. Qed.

Lemma calls_only_call (P : Event -> Prop) {A} (ev : Event) (r : PortRes A) :
  P ev -> calls_only P (@call S A ev r).
Proof.
  intros H. unfold call. cbn [bind Monad_M].
  apply calls_only_bind; [apply calls_only_emit, H | intros _].
  apply calls_only_settle.
Qed.

Lemma calls_only_if P {A} (b : bool) (m1 m2 : M S A) :
  calls_only P m1 -> calls_only P m2 -> calls_only P (if b then m1 else m2).
Proof. destruct b; auto. Qed.

Lemma throws_only_ret P {A} (a : A) : throws_only P (@mret S A a).
Proof. intros s e. discriminate. Qed.

Lemma throws_only_throw (P : SdkError -> Prop) {A} (m : string) (c : Code) :
  P (mkSdkError m c) -> throws_only P (@throw S A m c).
Proof. intros H s e E. injection E as <-. exact H. Qed.

Lemma throws_only_get P : throws_only P (@get S).
Proof. intros s e. discriminate. Qed.

Lemma throws_only_emit P (ev : Event) : throws_only P (@emit S ev).
Proof. intros s e. discriminate. Qed.

Lemma throws_only_settle P {A} (r : PortRes A) :
  throws_only P (@settle S A r).
Proof. intros s e. destruct r; discriminate. Qed.

Lemma throws_only_query P {A} (f : S -> PortRes A) :
  throws_only P (query f).
Proof. intros s e. unfold query. destruct (f s); discriminate. Qed.

Lemma throws_only_update P (f : S -> PortRes S) : throws_only P (update f).
Proof. intros s e. unfold update. destruct (f s); discriminate. Qed.

Lemma throws_only_call P {A} (ev : Event) (r : PortRes A) :
  throws_only P (@call S A ev r).
Proof.
  unfold call. cbn [bind Monad_M].
  apply throws_only_bind; [apply throws_only_emit | intros _].
  apply throws_only_settle.
Qed.

Lemma throws_only_if P {A} (b : bool) (m1 m2 : M S A) :
  (b = true -> throws_only P m1) -> (b = false -> throws_only P m2) ->
  throws_only P (if b then m1 else m2).
Proof. destruct b; auto. Qed.

End Runs.

Create HintDb runs.
#[global] Hint Resolve calls_only_ret calls_only_throw calls_only_get
  calls_only_settle calls_only_query calls_only_update
  throws_only_ret throws_only_get throws_only_emit
  throws_only_settle throws_only_query throws_only_update
  throws_only_call : runs.

(** Splits a goal about a computation along its binds and branches. *)
Ltac split_run :=
  cbn [bind ret Monad_M];
  repeat match goal with
    | |- calls_only _ (mbind _ _) => apply calls_only_bind
    | |- calls_only _ (if _ then _ else _) => apply calls_only_if
    | |- throws_only _ (mbind _ _) => apply throws_only_bind
    | |- throws_only _ (if _ then _ else _) => apply throws_only_if; intro
    | |- calls_only _ (emit _) => apply calls_only_emit
    | |- forall _, calls_only _ _ => intro
    | |- forall _, throws_only _ _ => intro
    end.

(** ** Values *)

Lemma is_empty_true (s : string) : is_empty s = true <-> s = "".
Proof. unfold is_empty. apply String.eqb_eq. Qed.

Lemma is_empty_false (s : string) : is_empty s = false <-> s <> "".
Proof. unfold is_empty. apply String.eqb_neq. Qed.

Lemma truthy_str_false (o : option string) :
  truthy_str o = false <-> missing o.
Proof.
  unfold missing. destruct o as [s |]; cbn.
  - rewrite negb_false_iff, String.eqb_eq. split.
    + intros ->. now right.
    + intros [H | H]; [discriminate | now injection H].
  - split; auto.
Qed.

Lemma needs_account_true (baseTx : BaseTx) :
  needs_account baseTx = true
  <-> missing (account_number baseTx) \/ missing (sequence baseTx).
Proof.
  unfold needs_account.
  rewrite orb_true_iff, !negb_true_iff, !truthy_str_false. tauto.
Qed.

(** [String(v)] of a truthy value is never the empty string, so the
    [|| '0'] behind it never applies. *)
Lemma String_truthy (v : JsScalar) :
  truthy v = true -> or_str (String_ v) "0" = String_ v.
Proof.
  unfold or_str. destruct v as [| z | s]; cbn; try discriminate.
  - intros _. destruct (Z.to_int z) as [d | d]; cbn.
    + destruct d; reflexivity.
    + reflexivity.
  - intros H. apply negb_true_iff in H. now rewrite H.
Qed.

(** ** Signing *)

Section SignFacts.

Variables T V : Type.
Variable ops : ProtoTxOps T.
Variable Crypto : CryptoLib.
Variable client : Client T V.

Lemma resolve_supplied (baseTx : BaseTx) (keyObj : Key) (tx : T) :
  needs_account baseTx = false ->
  resolve client baseTx keyObj tx
  = mkRun [] tx (Ok (nullish (account_number baseTx) "0",
                     or_else (sequence baseTx) "0")).
Proof. unfold resolve. intros ->. reflexivity. Qed.

Lemma resolve_queried (baseTx : BaseTx) (keyObj : Key) (tx : T) :
  needs_account baseTx = true ->
  resolve client baseTx keyObj tx
  = match auth_queryAccount client (address keyObj) with
    | Done account =>
        mkRun [QueryAccount (address keyObj)] tx
          (Ok (if truthy (accountNumber account)
               then String_ (accountNumber account)
               else nullish (account_number baseTx) "0",
               if truthy (acc_sequence account)
               then String_ (acc_sequence account)
               else or_else (sequence baseTx) "0"))
    | Failed e =>
        mkRun [QueryAccount (address keyObj)] tx (Raise (Propagated e))
    end.
Proof.
  unfold resolve. intros ->. unfold_monad.
  destruct (auth_queryAccount client (address keyObj)) as [account | e];
    cbn; [ | reflexivity].
  destruct (truthy (accountNumber account)) eqn:Ea,
           (truthy (acc_sequence account)) eqn:Es;
    rewrite ?(String_truthy _ Ea), ?(String_truthy _ Es); reflexivity.
Qed.

Lemma attach_calls (baseTx : BaseTx) (k : option string) (a s : string) :
  calls_only local_call (attach ops Crypto client baseTx k a s).
Proof.
  unfold attach. split_run; auto with runs;
    try apply calls_only_call; split; reflexivity.
Qed.

Lemma attach_throws_nothing (baseTx : BaseTx) (k : option string)
    (a s : string) :
  throws_only no_error (attach ops Crypto client baseTx k a s).
Proof. unfold attach. split_run; auto with runs. Qed.

(** [sign] once the key is found: the rest of the function. *)
Lemma sign_found (baseTx : BaseTx) (tx : T)
    (decrypt_ : string -> string -> PortRes (option string)) (keyObj : Key) :
  from baseTx <> "" -> password baseTx <> "" ->
  decrypt (keyDAO client) = Some decrypt_ ->
  read (keyDAO client) (from baseTx) = Done (Some keyObj) ->
  sign ops Crypto client baseTx tx
  = (emit (KeyRead (from baseTx)) ;;
     nonce <- resolve client baseTx keyObj ;;
     privKey <- call (KeyDecrypt (privateKey keyObj) (password baseTx))
                     (decrypt_ (privateKey keyObj) (password baseTx)) ;;
     if negb (truthy_str privKey)
     then throw "decrypto the private key error" InvalidPassword
     else attach ops Crypto client baseTx privKey (fst nonce) (snd nonce)) tx.
Proof.
  intros Hf Hp Hd Hr. unfold sign.
  apply is_empty_false in Hf, Hp. rewrite Hf, Hp, Hd.
  cbn [bind Monad_M].
  rewrite (bind_call_done _ _ _ (Some keyObj) _ _ Hr), bind_emit.
  reflexivity.
Qed.

Lemma sign_runs (baseTx : BaseTx) (tx : T) :
  SignRun ops Crypto client baseTx tx (sign ops Crypto client baseTx tx).
Proof.
  destruct (is_empty (from baseTx)) eqn:Ef.
  { unfold sign. rewrite Ef. apply NoCredentials.
    left. now apply is_empty_true. }
  destruct (is_empty (password baseTx)) eqn:Ep.
  { unfold sign. rewrite Ef, Ep. apply NoCredentials.
    right. now apply is_empty_true. }
  destruct (decrypt (keyDAO client)) as [d |] eqn:Ed.
  2:{ unfold sign. rewrite Ef, Ep, Ed. now apply NoDecrypt. }
  destruct (read (keyDAO client) (from baseTx)) as [[keyObj |] | x] eqn:Er.
  2:{ unfold sign. rewrite Ef, Ep, Ed. cbn [bind Monad_M].
      rewrite (bind_call_done _ _ _ None _ _ Er). now apply NoKey. }
  2:{ unfold sign. rewrite Ef, Ep, Ed. cbn [bind Monad_M].
      rewrite (bind_call_failed _ _ _ x _ _ Er). now apply ReadFailed. }
  apply is_empty_false in Ef, Ep.
  rewrite (sign_found baseTx tx d keyObj Ef Ep Ed Er).
  cbn [bind Monad_M]. rewrite bind_emit.
  assert (Hrest : forall nonce : string * string,
    mbind (call (KeyDecrypt (privateKey keyObj) (password baseTx))
             (d (privateKey keyObj) (password baseTx)))
      (fun privKey : option string =>
         if negb (truthy_str privKey)
         then throw "decrypto the private key error" InvalidPassword
         else attach ops Crypto client baseTx privKey
                (fst nonce) (snd nonce)) tx
    = match d (privateKey keyObj) (password baseTx) with
      | Failed x =>
          mkRun [KeyDecrypt (privateKey keyObj) (password baseTx)] tx
            (Raise (Propagated x))
      | Done privKey =>
          if truthy_str privKey
          then
            let r := attach ops Crypto client baseTx privKey
                       (fst nonce) (snd nonce) tx in
            mkRun (KeyDecrypt (privateKey keyObj) (password baseTx)
                   :: trace r)
                  (final r) (outcome r)
          else
            mkRun [KeyDecrypt (privateKey keyObj) (password baseTx)] tx
              (Raise (Thrown (mkSdkError "decrypto the private key error"
                                InvalidPassword)))
      end).
  { intros nonce.
    destruct (d (privateKey keyObj) (password baseTx)) as [privKey | x] eqn:Ek.
    - rewrite (bind_call_done _ _ _ privKey _ _ eq_refl).
      destruct (truthy_str privKey); reflexivity.
    - now rewrite (bind_call_failed _ _ _ x _ _ eq_refl). }
  destruct (needs_account baseTx) eqn:En.
  - assert (Hq := resolve_queried baseTx keyObj tx En).
    destruct (auth_queryAccount client (address keyObj)) as [account | e].
    2:{ erewrite bind_raise by exact Hq. cbn [trace final outcome].
        now apply NoAccount. }
    erewrite bind_value by exact Hq. rewrite Hrest.
    destruct (d (privateKey keyObj) (password baseTx)) as [privKey | x];
      [destruct (truthy_str privKey) | ]; cbn [trace final outcome app].
    + apply Attached with (q := [QueryAccount (address keyObj)]);
        [exact Er | unfold account_calls; now rewrite En].
    + apply NoPrivateKey with (q := [QueryAccount (address keyObj)]);
        [exact Er | unfold account_calls; now rewrite En].
    + apply DecryptFailed with (q := [QueryAccount (address keyObj)]);
        [exact Er | unfold account_calls; now rewrite En].
  - erewrite bind_value by exact (resolve_supplied baseTx keyObj tx En).
    rewrite Hrest.
    destruct (d (privateKey keyObj) (password baseTx)) as [privKey | x];
      [destruct (truthy_str privKey) | ]; cbn [trace final outcome app].
    + apply Attached with (q := []);
        [exact Er | unfold account_calls; now rewrite En].
    + apply NoPrivateKey with (q := []);
        [exact Er | unfold account_calls; now rewrite En].
    + apply DecryptFailed with (q := []);
        [exact Er | unfold account_calls; now rewrite En].
Qed.

Lemma network_calls_app (t1 t2 : list Event) :
  network_calls (t1 ++ t2) = (network_calls t1 ++ network_calls t2)%list.
Proof. apply filter_app. Qed.

Lemma account_calls_network (baseTx : BaseTx) (keyObj : Key) :
  network_calls (account_calls baseTx keyObj) = account_calls baseTx keyObj.
Proof. unfold account_calls. destruct (needs_account baseTx); reflexivity. Qed.

Lemma account_calls_in (baseTx : BaseTx) (keyObj : Key) (e : Event) :
  In e (account_calls baseTx keyObj) ->
  needs_account baseTx = true /\ e = QueryAccount (address keyObj).
Proof.
  unfold account_calls. destruct (needs_account baseTx); [ | intros []].
  intros [<- | []]. now split.
Qed.

(** The errors [sign] throws and the calls to the node before each. *)
Lemma sign_error_network (baseTx : BaseTx) (tx : T) (e : SdkError) :
  outcome (sign ops Crypto client baseTx tx) = Raise (Thrown e) ->
  match classify (Thrown e) with
  | ValidationError | ConfigError | NotFoundError =>
      network_calls (trace (sign ops Crypto client baseTx tx)) = []
  | AuthError =>
      exists keyObj,
        read (keyDAO client) (from baseTx) = Done (Some keyObj)
        /\ network_calls (trace (sign ops Crypto client baseTx tx))
           = account_calls baseTx keyObj
  | _ => False
  end.
Proof.
  destruct (sign_runs baseTx tx)
    as [m H | m H | x H | m H | keyObj x Hr Hn | keyObj x q Hr ->
       | keyObj m q Hr -> | keyObj k a s q Hr ->];
    cbn [outcome trace]; intros E.
  - injection E as <-. reflexivity.
  - injection E as <-. reflexivity.
  - discriminate.
  - injection E as <-. reflexivity.
  - discriminate.
  - discriminate.
  - injection E as <-. cbn. exists keyObj. split; [exact Hr | ].
    change (network_calls (account_calls baseTx keyObj
                           ++ [KeyDecrypt (privateKey keyObj)
                                 (password baseTx)])
            = account_calls baseTx keyObj).
    rewrite network_calls_app, account_calls_network. cbn.
    apply app_nil_r.
  - exfalso. exact (attach_throws_nothing baseTx k a s tx e E).
Qed.

Lemma sign_throws (baseTx : BaseTx) :
  throws_only sign_code (sign ops Crypto client baseTx).
Proof.
  intros tx e E. unfold sign_code.
  assert (H := sign_error_network baseTx tx e E).
  unfold classify in H. destruct (code e); tauto.
Qed.

Lemma sign_query_needed (baseTx : BaseTx) (tx : T) (a : string) :
  In (QueryAccount a) (trace (sign ops Crypto client baseTx tx)) ->
  needs_account baseTx = true.
Proof.
  destruct (sign_runs baseTx tx)
    as [m H | m H | x H | m H | keyObj x Hr Hn | keyObj x q Hr ->
       | keyObj m q Hr -> | keyObj k a' s q Hr ->];
    cbn [trace].
  - intros [].
  - intros [].
  - intros [H' | []]. discriminate.
  - intros [H' | []]. discriminate.
  - intros _. exact Hn.
  - intros [H' | H']; [discriminate | ].
    apply in_app_iff in H'. destruct H' as [H' | [H' | []]];
      [ | discriminate].
    now apply account_calls_in in H'.
  - intros [H' | H']; [discriminate | ].
    apply in_app_iff in H'. destruct H' as [H' | [H' | []]];
      [ | discriminate].
    now apply account_calls_in in H'.
  - intros [H' | H']; [discriminate | ].
    apply in_app_iff in H'. destruct H' as [H' | [H' | H']];
      [ | discriminate | ].
    + now apply account_calls_in in H'.
    + apply attach_calls in H'. destruct H' as [H' _]. discriminate.
Qed.

Lemma sign_query_made (baseTx : BaseTx) (tx : T)
    (decrypt_ : string -> string -> PortRes (option string)) (keyObj : Key) :
  from baseTx <> "" -> password baseTx <> "" ->
  decrypt (keyDAO client) = Some decrypt_ ->
  read (keyDAO client) (from baseTx) = Done (Some keyObj) ->
  needs_account baseTx = true ->
  In (QueryAccount (address keyObj))
     (trace (sign ops Crypto client baseTx tx)).
Proof.
  intros Hf Hp Hd Hr Hn.
  rewrite (sign_found baseTx tx decrypt_ keyObj Hf Hp Hd Hr).
  cbn [bind Monad_M]. rewrite bind_emit. cbn [trace]. right.
  rewrite trace_bind.
  assert (Hq := resolve_queried baseTx keyObj tx Hn).
  destruct (auth_queryAccount client (address keyObj)); rewrite Hq;
    cbn [outcome trace]; [apply in_app_iff; left | ]; now left.
Qed.

Lemma sign_reads_key (baseTx : BaseTx) (tx : T) :
  In (KeyRead (from baseTx)) (trace (sign ops Crypto client baseTx tx))
  <-> from baseTx <> "" /\ password baseTx <> ""
      /\ decrypt (keyDAO client) <> None.
Proof.
  unfold sign.
  destruct (is_empty (from baseTx)) eqn:Ef.
  { apply is_empty_true in Ef. cbn. split; [tauto | intros [H _]; auto]. }
  destruct (is_empty (password baseTx)) eqn:Ep.
  { apply is_empty_true in Ep. cbn.
    split; [tauto | intros (_ & H & _); auto]. }
  apply is_empty_false in Ef, Ep.
  destruct (decrypt (keyDAO client)) as [d |].
  2:{ cbn. split; [tauto | intros (_ & _ & H); auto]. }
  split; [intros _; repeat split; auto; discriminate | intros _].
  cbn [bind Monad_M].
  apply bind_call_in.
Qed.

(** [sign] stops at a key that does not decrypt. *)
Lemma sign_invalid_password (baseTx : BaseTx) (tx : T)
    (decrypt_ : string -> string -> PortRes (option string)) (keyObj : Key) :
  from baseTx <> "" -> password baseTx <> "" ->
  decrypt (keyDAO client) = Some decrypt_ ->
  read (keyDAO client) (from baseTx) = Done (Some keyObj) ->
  needs_account baseTx = false ->
  forall privKey,
  decrypt_ (privateKey keyObj) (password baseTx) = Done privKey ->
  truthy_str privKey = false ->
  sign ops Crypto client baseTx tx
  = mkRun [KeyRead (from baseTx);
           KeyDecrypt (privateKey keyObj) (password baseTx)] tx
      (Raise (Thrown (mkSdkError "decrypto the private key error"
                        InvalidPassword))).
Proof.
  intros Hf Hp Hd Hr Hn privKey Hk Hfalsy.
  rewrite (sign_found baseTx tx decrypt_ keyObj Hf Hp Hd Hr).
  cbn [bind Monad_M]. rewrite bind_emit.
  erewrite bind_value by exact (resolve_supplied baseTx keyObj tx Hn).
  rewrite (bind_call_done _ _ _ privKey _ _ Hk), Hfalsy. reflexivity.
Qed.

(** C5. [sign] fails with the validation error whenever [baseTx.from] or
    [baseTx.password] is empty, whatever the other inputs are; by then
    nothing has been called, neither the key store nor the node, and the
    transaction is as it was. *)
Theorem sign_empty_credentials (baseTx : BaseTx) (tx : T) :
  from baseTx = "" \/ password baseTx = "" ->
  exists m,
    sign ops Crypto client baseTx tx
    = mkRun [] tx (Raise (Thrown (mkSdkError m CodeDefault)))
    /\ classify (Thrown (mkSdkError m CodeDefault)) = ValidationError.
Proof.
  intros [H | H]; unfold sign.
  - apply is_empty_true in H. rewrite H. eexists; split; reflexivity.
  - apply is_empty_true in H. rewrite H.
    destruct (is_empty (from baseTx)); eexists; split; reflexivity.
Qed.

(** C6, amended. When the name and the password of [baseTx] are not empty
    and the key store has a [decrypt], [sign] fails with the not-found
    error whenever the read of the key store returns no record for
    [baseTx.from], whatever the other fields of [baseTx], the
    transaction, the node and the crypto helpers are; the read is the
    one call made. *)
Theorem sign_key_not_found (baseTx : BaseTx) (tx : T) :
  from baseTx <> "" -> password baseTx <> "" ->
  decrypt (keyDAO client) <> None ->
  read (keyDAO client) (from baseTx) = Done None ->
  sign ops Crypto client baseTx tx
  = mkRun [KeyRead (from baseTx)] tx
      (Raise (Thrown (mkSdkError
                        ("Key with name '" ++ from baseTx ++ "' not found")
                        KeyNotFound)))
  /\ classify (Thrown (mkSdkError
                         ("Key with name '" ++ from baseTx ++ "' not found")
                         KeyNotFound)) = NotFoundError.
Proof.
  intros Hf Hp Hd Hr. split; [ | reflexivity].
  apply is_empty_false in Hf, Hp. unfold sign. rewrite Hf, Hp.
  destruct (decrypt (keyDAO client)) as [d |]; [ | contradiction].
  cbn [bind Monad_M]. rewrite (bind_call_done _ _ _ None _ _ Hr).
  reflexivity.
Qed.

(** C4, amended. The account is asked for exactly when
    [baseTx.account_number] or [baseTx.sequence] is missing or empty
    (given that [sign] gets that far), and never when both are there; of
    the account that comes back, the number and the sequence are each
    taken when they are there and are not zero. *)
Theorem resolver_use (baseTx : BaseTx) (keyObj : Key) (tx : T) :
  (In (QueryAccount (address keyObj))
      (trace (resolve client baseTx keyObj tx))
   <-> missing (account_number baseTx) \/ missing (sequence baseTx))
  /\ (forall a,
        In (QueryAccount a) (trace (sign ops Crypto client baseTx tx)) ->
        missing (account_number baseTx) \/ missing (sequence baseTx))
  /\ (forall decrypt_,
        from baseTx <> "" -> password baseTx <> "" ->
        decrypt (keyDAO client) = Some decrypt_ ->
        read (keyDAO client) (from baseTx) = Done (Some keyObj) ->
        missing (account_number baseTx) \/ missing (sequence baseTx) ->
        In (QueryAccount (address keyObj))
           (trace (sign ops Crypto client baseTx tx)))
  /\ (forall account,
        auth_queryAccount client (address keyObj) = Done account ->
        missing (account_number baseTx) \/ missing (sequence baseTx) ->
        exists number seq,
          outcome (resolve client baseTx keyObj tx) = Ok (number, seq)
          /\ (truthy (accountNumber account) = true ->
              number = String_ (accountNumber account))
          /\ (truthy (acc_sequence account) = true ->
              seq = String_ (acc_sequence account))).
Proof.
  assert (Hn := needs_account_true baseTx).
  split; [ | split; [ | split]].
  - rewrite <- Hn. split.
    + destruct (needs_account baseTx) eqn:En; [reflexivity | ].
      rewrite (resolve_supplied baseTx keyObj tx En). intros [].
    + intros En. assert (Hq := resolve_queried baseTx keyObj tx En).
      destruct (auth_queryAccount client (address keyObj)); rewrite Hq;
        now left.
  - intros a Ha. apply Hn. exact (sign_query_needed baseTx tx a Ha).
  - intros d Hf Hp Hd Hr Hm. apply Hn in Hm.
    exact (sign_query_made baseTx tx d keyObj Hf Hp Hd Hr Hm).
  - intros account Ha Hm. apply Hn in Hm.
    rewrite (resolve_queried baseTx keyObj tx Hm), Ha. cbn [outcome].
    eexists. eexists. split; [reflexivity | ].
    split; intros ->; reflexivity.
Qed.

End SignFacts.

(** ** Signing a sign document *)

Section SignDocFacts.

Variables T V : Type.
Variable ops : ProtoTxOps T.
Variable Crypto : CryptoLib.
Variable client : Client T V.

(** C1, as the code has it. [sign_signDoc] does not look at what the key
    store decrypts to: when the stored key does not decrypt (the answer
    is nothing, or the empty string), it does not fail with the
    invalid-password error but hands that answer to
    [Crypto.generateSignature], and ends with whatever that call ends
    with. *)
Theorem sign_signDoc_unchecked_key (signDoc : bytes) (name pass : string)
    (type : option PubkeyType)
    (decrypt_ : string -> string -> PortRes (option string)) (keyObj : Key)
    (privKey : option string) :
  name <> "" -> pass <> "" ->
  decrypt (keyDAO client) = Some decrypt_ ->
  read (keyDAO client) name = Done (Some keyObj) ->
  decrypt_ (privateKey keyObj) pass = Done privKey ->
  trace (sign_signDoc Crypto client signDoc name pass type tt)
  = [KeyRead name; KeyDecrypt (privateKey keyObj) pass;
     GenerateSignature signDoc privKey (default_type type)]
  /\ outcome (sign_signDoc Crypto client signDoc name pass type tt)
     = match generateSignature Crypto signDoc privKey (default_type type) with
       | Done signature => Ok signature
       | Failed e => Raise (Propagated e)
       end
  /\ forall e,
       outcome (sign_signDoc Crypto client signDoc name pass type tt)
       <> Raise (Thrown e).
Proof.
  intros Hn Hp Hd Hr Hk.
  apply is_empty_false in Hn, Hp.
  unfold sign_signDoc. rewrite Hn, Hp, Hd.
  cbn [bind Monad_M].
  rewrite (bind_call_done _ _ _ (Some keyObj) _ _ Hr).
  rewrite (bind_call_done _ _ _ privKey _ _ Hk).
  unfold call. cbn [bind Monad_M]. rewrite bind_emit. cbn [trace outcome].
  destruct (generateSignature Crypto signDoc privKey (default_type type));
    cbn; repeat split; intros; discriminate.
Qed.

End SignDocFacts.

(** ** Creating messages *)

Section MsgFacts.

Variable V : Type.
Variable TxType_value : TxType -> string.

Lemma case_labels_complete (k : TxType) : In k case_labels.
Proof. destruct k; cbn; tauto. Qed.

Lemma switch_some (tag : string) (k : TxType) :
  switch TxType_value tag = Some k -> TxType_value k = tag.
Proof.
  unfold switch. intros H. apply find_some in H.
  destruct H as [_ H]. apply String.eqb_eq in H. now symmetry.
Qed.

Lemma switch_none (tag : string) :
  switch TxType_value tag = None <-> forall k, TxType_value k <> tag.
Proof.
  unfold switch. split.
  - intros H k E.
    assert (H' := find_none _ _ H k (case_labels_complete k)).
    cbn in H'. apply String.eqb_neq in H'. now apply H'.
  - intros H. destruct (find _ case_labels) as [k |] eqn:E; [ | reflexivity].
    apply switch_some in E. now apply H in E.
Qed.



(** The members of a TypeScript enum of strings are told apart by their
    strings. *)
Hypothesis TxType_distinct :
  forall k1 k2, TxType_value k1 = TxType_value k2 -> k1 = k2.

Lemma switch_label (k : TxType) :
  switch TxType_value (TxType_value k) = Some k.
Proof.
  destruct (switch TxType_value (TxType_value k)) as [k' |] eqn:E.
  - apply switch_some, TxType_distinct in E. now subst.
  - exfalso. exact (proj1 (switch_none _) E k eq_refl).
Qed.

Lemma createMsg_label (k : TxType) (v : V) :
  createMsg TxType_value (mkTxMsg (TxType_value k) v) = Ok (case_body k v).
Proof. unfold createMsg. cbn [type value]. now rewrite switch_label. Qed.


(** C3, as the code has it. For the three coinswap tags [createMsg]
    neither throws nor builds a message: it returns the empty object the
    variable was initialised with, whatever the value is. *)
Theorem createMsg_coinswap_empty (k : TxType) (v : V) :
  is_coinswap k = true ->
  createMsg TxType_value (mkTxMsg (TxType_value k) v) = Ok EmptyObject
  /\ forall c, createMsg TxType_value (mkTxMsg (TxType_value k) v)
               <> Ok (New c v).
Proof.
  intros H. rewrite createMsg_label.
  destruct k; try discriminate H; cbn; split; try reflexivity;
    intros c; discriminate.
Qed.

End MsgFacts.

(** ** Signing on the transaction object of the spec *)

Section ProtoTxFacts.

Variable V : Type.
Variable codec : Codec V.
Variable Crypto : CryptoLib.
Variable client : Client (ProtoTx V) V.



End ProtoTxFacts.

(** ** Broadcasting *)

Section BroadcastFacts.

Variables T V : Type.
Variable ops : ProtoTxOps T.
Variable Utils : UtilsLib.
Variable client : Client T V.

Lemma positive_code_some (n : N) : n <> 0%N -> positive_code (Some n) = true.
Proof. intros H. cbn. apply N.ltb_lt. lia. Qed.

Lemma positive_code_false (c : option N) :
  positive_code c = false <-> c = None \/ c = Some 0%N.
Proof.
  destruct c as [n |]; cbn.
  - rewrite N.ltb_ge. split.
    + intros H. right. f_equal. lia.
    + intros [H | H]; [discriminate | injection H as ->; lia].
  - split; auto.
Qed.

Lemma broadcastTx_throws (txBytes : bytes) (method : string) :
  throws_only broadcast_code (broadcastTx Utils client txBytes method).
Proof.
  unfold broadcastTx. split_run; auto with runs;
    apply throws_only_throw.
  - now left.
  - right. cbn. destruct (r_code a) as [n |]; [now exists n | discriminate].
Qed.

Lemma commit_result_throws (response : RpcResponse) :
  throws_only broadcast_code (commit_result Utils response).
Proof.
  unfold commit_result. split_run; auto with runs.
  - destruct (check_tx response) as [c |]; split_run; auto with runs.
    apply throws_only_throw. right.
    destruct (rt_code c) as [n |]; [now exists n | discriminate].
  - destruct (deliver_tx response) as [d |]; split_run; auto with runs.
    apply throws_only_throw. right.
    destruct (rt_code d) as [n |]; [now exists n | discriminate].
Qed.

Lemma broadcast_throws (signedTx : T) (mode : option BroadcastMode) :
  throws_only broadcast_code (broadcast ops Utils client signedTx mode).
Proof.
  unfold broadcast, broadcastTxCommit, broadcastTxSync, broadcastTxAsync.
  destruct mode as [[] |]; split_run; auto with runs;
    first [apply broadcastTx_throws | apply commit_result_throws].
Qed.

(** C8. Under the mode [Commit] the check phase is looked at first and the
    delivery phase second. A check phase with a code that is not zero
    fails the call with that log and that code, whatever the rest of the
    response is; when the check phase passes, a delivery phase with a
    code that is not zero fails it with the log and code of the delivery
    phase. Either way the call ends with the error alone: no hash,
    height, gas or tags are returned. *)
Theorem commit_checks_in_order (signedTx : T) (response : RpcResponse) :
  rpc_request client RpcMethods.BroadcastTxCommit
    (bytesToBase64 Utils (getData ops signedTx)) = Done response ->
  (forall c n,
      check_tx response = Some c -> rt_code c = Some n -> n <> 0%N ->
      broadcast ops Utils client signedTx (Some Commit) tt
      = mkRun [RpcRequest RpcMethods.BroadcastTxCommit
                 (bytesToBase64 Utils (getData ops signedTx));
               ConsoleError c] tt
          (Raise (Thrown (mkSdkError (rt_log c) (CodeOf n)))))
  /\ (forall d n,
        phase_failed (check_tx response) = false ->
        deliver_tx response = Some d -> rt_code d = Some n -> n <> 0%N ->
        broadcast ops Utils client signedTx (Some Commit) tt
        = mkRun [RpcRequest RpcMethods.BroadcastTxCommit
                   (bytesToBase64 Utils (getData ops signedTx));
                 ConsoleError d] tt
            (Raise (Thrown (mkSdkError (rt_log d) (CodeOf n))))).
Proof.
  intros Hresp. unfold broadcast, broadcastTxCommit, call.
  cbn [bind Monad_M].
  cbv [mbind emit settle outcome final trace app]. rewrite Hresp.
  unfold commit_result. cbn [bind ret Monad_M]. split.
  - intros c n Hc Hn Hz. rewrite Hc, Hn, (positive_code_some n Hz).
    reflexivity.
  - intros d n Hc Hd Hn Hz. unfold phase_failed in Hc.
    rewrite Hd, Hn, (positive_code_some n Hz).
    destruct (check_tx response) as [c |]; [rewrite Hc | ]; reflexivity.
Qed.

Lemma not_inArray_submit (mode : BroadcastMode) :
  not_inArray (submit_method mode) = false.
Proof. destruct mode; reflexivity. Qed.

(** C9. Under the modes [Async] and [Sync] the one check is on the code
    of the response to the submission: a code that is not zero fails the
    call with the log and the code of that response, and otherwise the
    result is the hash of the response with no height, gas, info or
    tags. The check and delivery phases of the response play no part in
    either. *)
Theorem submit_checks_own_code (signedTx : T) (mode : BroadcastMode)
    (response : RpcResponse) :
  mode <> Commit ->
  rpc_request client (submit_method mode)
    (bytesToBase64 Utils (getData ops signedTx)) = Done response ->
  (forall n,
      r_code response = Some n -> n <> 0%N ->
      broadcast ops Utils client signedTx (Some mode) tt
      = mkRun [RpcRequest (submit_method mode)
                 (bytesToBase64 Utils (getData ops signedTx))] tt
          (Raise (Thrown (mkSdkError (r_log response) (CodeOf n)))))
  /\ (r_code response = None \/ r_code response = Some 0%N ->
      broadcast ops Utils client signedTx (Some mode) tt
      = mkRun [RpcRequest (submit_method mode)
                 (bytesToBase64 Utils (getData ops signedTx))] tt
          (Ok {| hash := r_hash response;
                 height := None;
                 gas_wanted := None;
                 gas_used := None;
                 info := None;
                 tags := None |})).
Proof.
  intros Hmode Hresp.
  assert (Hrun : broadcast ops Utils client signedTx (Some mode) tt
                 = (response <- broadcastTx Utils client
                                  (getData ops signedTx)
                                  (submit_method mode) ;;
                    ret (newTxResult (r_hash response) None None)) tt).
  { destruct mode; [reflexivity | reflexivity | now contradiction Hmode]. }
  rewrite Hrun. unfold broadcastTx. rewrite not_inArray_submit.
  unfold call. cbn [bind ret Monad_M]. split.
  - intros n Hn Hz.
    cbv [mbind emit settle throw mret outcome final trace app].
    rewrite Hresp. cbn. rewrite Hn, (positive_code_some n Hz). reflexivity.
  - intros Hz. apply positive_code_false in Hz.
    cbv [mbind emit settle throw mret outcome final trace app].
    rewrite Hresp. cbn. rewrite Hz. reflexivity.
Qed.

(** C10. A mode that is neither [Commit] nor [Sync], the mode left out
    among them, takes the path of [Async]: the transaction is submitted
    with [broadcast_tx_async], and [broadcast] is what it is for the
    mode [Async]. *)
Theorem unspecified_mode_is_async (signedTx : T)
    (mode : option BroadcastMode) :
  mode <> Some Commit -> mode <> Some Sync ->
  broadcast ops Utils client signedTx mode
  = (response <- broadcastTxAsync Utils client (getData ops signedTx) ;;
     ret (newTxResult (r_hash response) None None))
  /\ broadcast ops Utils client signedTx mode
     = broadcast ops Utils client signedTx (Some Async)
  /\ trace (broadcast ops Utils client signedTx mode tt)
     = [RpcRequest "broadcast_tx_async"
          (bytesToBase64 Utils (getData ops signedTx))].
Proof.
  intros Hc Hs.
  assert (E : broadcast ops Utils client signedTx mode
              = (response <- broadcastTxAsync Utils client
                               (getData ops signedTx) ;;
                 ret (newTxResult (r_hash response) None None))).
  { destruct mode as [[] |]; try reflexivity; now contradiction. }
  split; [exact E | ]. split; [rewrite E; reflexivity | ].
  rewrite E. unfold broadcastTxAsync, broadcastTx.
  change (not_inArray RpcMethods.BroadcastTxAsync) with false.
  cbv [bind ret Monad_M mbind call emit settle throw mret outcome final
       trace app].
  destruct (rpc_request client _ _) as [response | e]; [ | reflexivity].
  destruct (positive_code (r_code response)); reflexivity.
Qed.

End BroadcastFacts.

(** ** The whole pipeline *)

Section PipelineFacts.

Variables T V : Type.
Variable ops : ProtoTxOps T.
Variable Crypto : CryptoLib.
Variable Utils : UtilsLib.
Variable TxType_value : TxType -> string.
Variable client : Client T V.


(** C2, amended. The validation, configuration and not-found errors of
    [sign] are thrown before any call to the node, and so is the type
    error of the pipeline, which comes from [createMsg]. The
    invalid-password error is thrown with no call to the node before it
    only when [baseTx] carries both the account number and the
    sequence; when one of them is missing, the query for the account has
    been sent by then, and it is the one call to the node before the
    error. [sign] throws no other error of its own. *)
Theorem errors_and_node_calls :
  (forall (baseTx : BaseTx) (tx : T) (e : SdkError),
      outcome (sign ops Crypto client baseTx tx) = Raise (Thrown e) ->
      match classify (Thrown e) with
      | ValidationError | ConfigError | NotFoundError =>
          network_calls (trace (sign ops Crypto client baseTx tx)) = []
      | AuthError =>
          exists keyObj,
            read (keyDAO client) (from baseTx) = Done (Some keyObj)
            /\ network_calls (trace (sign ops Crypto client baseTx tx))
               = (if needs_account baseTx
                  then [QueryAccount (address keyObj)]
                  else [])
      | _ => False
      end)
  /\ (forall (msgs : list (TxMsg V)) (baseTx : BaseTx) (e : SdkError),
        outcome (buildAndSend ops Crypto Utils TxType_value client
                   msgs baseTx tt) = Raise (Thrown e) ->
        classify (Thrown e) = TypeError ->
        trace (buildAndSend ops Crypto Utils TxType_value client
                 msgs baseTx tt) = []).
Proof.
  split; [exact (sign_error_network _ _ ops Crypto client) | ].
  intros msgs baseTx e. unfold buildAndSend, buildTx.
  cbn [bind Monad_M].
  destruct (map_res (createMsg TxType_value) msgs) as [msgList | x] eqn:E.
  2:{ intros _ _. reflexivity. }
  intros Hout Hclass. exfalso.
  rewrite outcome_bind in Hout. cbn [of_res outcome final] in Hout.
  rewrite outcome_bind in Hout. unfold on_object in Hout at 1 2.
  cbn [outcome final] in Hout.
  destruct (outcome (sign ops Crypto client baseTx
                       (auth_newStdTx client msgList baseTx)))
    as [signedTx | x] eqn:Es.
  - apply broadcast_throws in Hout. unfold classify in Hclass.
    destruct Hout as [Hc | [n Hc]]; rewrite Hc in Hclass; discriminate.
  - injection Hout as ->. apply sign_throws in Es. unfold classify in Hclass.
    destruct Es as [Hc | [Hc | [Hc | Hc]]]; rewrite Hc in Hclass;
      discriminate.
Qed.

End PipelineFacts.

(** ** The sample client *)

Lemma TxType_name_distinct (k1 k2 : TxType) :
  Sample.TxType_name k1 = Sample.TxType_name k2 -> k1 = k2.
Proof. destruct k1, k2; intros H; try reflexivity; discriminate H. Qed.

(** With an empty name nothing is called. *)
Lemma sign_empty_credentials_sample :
  exists m,
    sign Sample.ops Sample.crypto (Sample.node Sample.store Sample.accepted)
      (Sample.base "" "pw" None None) Sample.unsigned
    = mkRun [] Sample.unsigned (Raise (Thrown (mkSdkError m CodeDefault)))
    /\ classify (Thrown (mkSdkError m CodeDefault)) = ValidationError.
Proof.
  apply (sign_empty_credentials _ _ Sample.ops Sample.crypto
           (Sample.node Sample.store Sample.accepted)
           (Sample.base "" "pw" None None) Sample.unsigned).
  left. reflexivity.
Defined.

(** The store has no key [bob]. *)
Lemma sign_key_not_found_sample :
  sign Sample.ops Sample.crypto (Sample.node Sample.store Sample.accepted)
    (Sample.base "bob" "pw" (Some "5") (Some "2")) Sample.unsigned
  = mkRun [KeyRead "bob"] Sample.unsigned
      (Raise (Thrown (mkSdkError "Key with name 'bob' not found"
                        KeyNotFound)))
  /\ classify (Thrown (mkSdkError "Key with name 'bob' not found"
                         KeyNotFound)) = NotFoundError.
Proof.
  apply (sign_key_not_found _ _ Sample.ops Sample.crypto
           (Sample.node Sample.store Sample.accepted)
           (Sample.base "bob" "pw" (Some "5") (Some "2")) Sample.unsigned).
  - discriminate.
  - discriminate.
  - discriminate.
  - reflexivity.
Defined.

(** The store has no key [bob], but with an empty password [sign] ends
    with the validation error and the store is not read. *)
Lemma empty_password_before_key_lookup :
  read Sample.store "bob" = Done None
  /\ sign Sample.ops Sample.crypto (Sample.node Sample.store Sample.accepted)
       (Sample.base "bob" "" (Some "5") (Some "2")) Sample.unsigned
     = mkRun [] Sample.unsigned
         (Raise (Thrown (mkSdkError
                           "baseTx.password of the key can not be empty"
                           CodeDefault)))
  /\ classify (Thrown (mkSdkError
                         "baseTx.password of the key can not be empty"
                         CodeDefault)) <> NotFoundError.
Proof. repeat split; try reflexivity. discriminate. Qed.

(** A key store that decrypts to the empty string: [sign_signDoc] signs
    with it. *)
Lemma sign_signDoc_unchecked_key_sample :
  trace (sign_signDoc Sample.crypto
           (Sample.node Sample.blank_store Sample.accepted)
           [] "alice" "pw" None tt)
  = [KeyRead "alice"; KeyDecrypt "sealed" "pw";
     GenerateSignature [] (Some "") (Some secp256k1)]
  /\ outcome (sign_signDoc Sample.crypto
                (Sample.node Sample.blank_store Sample.accepted)
                [] "alice" "pw" None tt)
     = Ok "sig"
  /\ forall e,
       outcome (sign_signDoc Sample.crypto
                  (Sample.node Sample.blank_store Sample.accepted)
                  [] "alice" "pw" None tt)
       <> Raise (Thrown e).
Proof.
  apply (sign_signDoc_unchecked_key _ _ Sample.crypto
           (Sample.node Sample.blank_store Sample.accepted)
           [] "alice" "pw" None (fun _ _ => Done (Some "")) Sample.alice
           (Some "")).
  - discriminate.
  - discriminate.
  - reflexivity.
  - reflexivity.
  - reflexivity.
Defined.

(** The same store under [sign]: the invalid-password error. *)
Example sign_blank_key :
  sign Sample.ops Sample.crypto
    (Sample.node Sample.blank_store Sample.accepted)
    (Sample.base "alice" "pw" (Some "5") (Some "2")) Sample.unsigned
  = mkRun [KeyRead "alice"; KeyDecrypt "sealed" "pw"] Sample.unsigned
      (Raise (Thrown (mkSdkError "decrypto the private key error"
                        InvalidPassword))).
Proof. reflexivity. Qed.

Lemma createMsg_coinswap_empty_sample :
  createMsg Sample.TxType_name (mkTxMsg "MsgAddLiquidity" "1000stake")
  = Ok EmptyObject
  /\ forall c,
       createMsg Sample.TxType_name (mkTxMsg "MsgAddLiquidity" "1000stake")
       <> Ok (New c "1000stake").
Proof.
  apply (createMsg_coinswap_empty string Sample.TxType_name
           TxType_name_distinct MsgAddLiquidity "1000stake").
  reflexivity.
Defined.

(** [alice] has sent nothing yet, so the node answers with sequence 0; the
    sequence of [baseTx] stays although the account was asked for. *)
Lemma supplied_sequence_survives_query :
  missing (account_number (Sample.base "alice" "pw" None (Some "7")))
  /\ auth_queryAccount (Sample.node Sample.store Sample.accepted) "iaa1alice"
     = Done Sample.account
  /\ String_ (acc_sequence Sample.account) = "0"
  /\ resolve (Sample.node Sample.store Sample.accepted)
       (Sample.base "alice" "pw" None (Some "7")) Sample.alice
       Sample.unsigned
     = mkRun [QueryAccount "iaa1alice"] Sample.unsigned (Ok ("3", "7"))
  /\ tx_signer
       (final (sign Sample.ops Sample.crypto
                 (Sample.node Sample.store Sample.accepted)
                 (Sample.base "alice" "pw" None (Some "7"))
                 Sample.unsigned))
     = Some ("pub", Some "7").
Proof.
  split; [left; reflexivity | ]. repeat split; reflexivity.
Qed.

Lemma resolver_use_sample :
  In (QueryAccount "iaa1alice")
     (trace (sign Sample.ops Sample.crypto
               (Sample.node Sample.store Sample.accepted)
               (Sample.base "alice" "pw" None (Some "7")) Sample.unsigned))
  /\ exists seq,
       outcome (resolve (Sample.node Sample.store Sample.accepted)
                  (Sample.base "alice" "pw" None (Some "7")) Sample.alice
                  Sample.unsigned)
       = Ok ("3", seq).
Proof.
  destruct (resolver_use _ _ Sample.ops Sample.crypto
              (Sample.node Sample.store Sample.accepted)
              (Sample.base "alice" "pw" None (Some "7")) Sample.alice
              Sample.unsigned) as (_ & _ & Hsign & Hfill).
  split.
  - apply (Hsign Sample.store_decrypt).
    + discriminate.
    + discriminate.
    + reflexivity.
    + reflexivity.
    + left. left. reflexivity.
  - destruct (Hfill Sample.account eq_refl (or_introl (or_introl eq_refl)))
      as (number & seq & Hout & Hnumber & _).
    exists seq. rewrite Hout, (Hnumber eq_refl). reflexivity.
Defined.

(** A wrong password with no account number in [baseTx]: the account has
    been asked for when the error is thrown. *)
Lemma auth_error_after_account_query :
  sign Sample.ops Sample.crypto (Sample.node Sample.store Sample.accepted)
    (Sample.base "alice" "wrong" None None) Sample.unsigned
  = mkRun [KeyRead "alice"; QueryAccount "iaa1alice";
           KeyDecrypt "sealed" "wrong"] Sample.unsigned
      (Raise (Thrown (mkSdkError "decrypto the private key error"
                        InvalidPassword)))
  /\ classify (Thrown (mkSdkError "decrypto the private key error"
                         InvalidPassword)) = AuthError
  /\ network_calls
       (trace (sign Sample.ops Sample.crypto
                 (Sample.node Sample.store Sample.accepted)
                 (Sample.base "alice" "wrong" None None) Sample.unsigned))
     = [QueryAccount "iaa1alice"].
Proof. repeat split; reflexivity. Qed.

Lemma errors_and_node_calls_sample :
  exists keyObj,
    read Sample.store "alice" = Done (Some keyObj)
    /\ network_calls
         (trace (sign Sample.ops Sample.crypto
                   (Sample.node Sample.store Sample.accepted)
                   (Sample.base "alice" "wrong" (Some "5") (Some "2"))
                   Sample.unsigned))
       = [].
Proof.
  apply (proj1 (errors_and_node_calls _ _ Sample.ops Sample.crypto
                  Sample.utils Sample.TxType_name
                  (Sample.node Sample.store Sample.accepted))
           (Sample.base "alice" "wrong" (Some "5") (Some "2"))
           Sample.unsigned
           (mkSdkError "decrypto the private key error" InvalidPassword)).
  reflexivity.
Defined.

Lemma commit_checks_in_order_sample :
  broadcast Sample.ops Sample.utils
    (Sample.node Sample.store Sample.refused) Sample.unsigned
    (Some Commit) tt
  = mkRun [RpcRequest "broadcast_tx_commit" "dHg=";
           ConsoleError Sample.refused_check] tt
      (Raise (Thrown (mkSdkError "signature verification failed"
                        (CodeOf 4)))).
Proof.
  apply (proj1 (commit_checks_in_order _ _ Sample.ops Sample.utils
                  (Sample.node Sample.store Sample.refused)
                  Sample.unsigned Sample.refused eq_refl)
           Sample.refused_check 4%N).
  - reflexivity.
  - reflexivity.
  - discriminate.
Defined.

Lemma submit_checks_own_code_sample :
  broadcast Sample.ops Sample.utils
    (Sample.node Sample.store Sample.refused) Sample.unsigned
    (Some Sync) tt
  = mkRun [RpcRequest "broadcast_tx_sync" "dHg="] tt
      (Raise (Thrown (mkSdkError "signature verification failed"
                        (CodeOf 4)))).
Proof.
  apply (proj1 (submit_checks_own_code _ _ Sample.ops Sample.utils
                  (Sample.node Sample.store Sample.refused)
                  Sample.unsigned Sync Sample.refused
                  ltac:(discriminate) eq_refl) 4%N).
  - reflexivity.
  - discriminate.
Defined.

Lemma unspecified_mode_is_async_sample :
  trace (broadcast Sample.ops Sample.utils
           (Sample.node Sample.store Sample.accepted) Sample.unsigned
           None tt)
  = [RpcRequest "broadcast_tx_async" "dHg="].
Proof.
  apply (unspecified_mode_is_async _ _ Sample.ops Sample.utils
           (Sample.node Sample.store Sample.accepted) Sample.unsigned None);
    discriminate.
Defined.

(** * Further properties of the module *)

Lemma no_network_calls (t : list Event) :
  (forall e, In e t -> is_network e = false) -> network_calls t = [].
Proof.
  unfold network_calls. induction t as [| e t IH]; [reflexivity | ].
  intros H. cbn. rewrite (H e (or_introl eq_refl)).
  apply IH. intros e' He'. apply H. now right.
Qed.

(** ** Building *)

Section BuildFacts.

Variables T V : Type.
Variable TxType_value : TxType -> string.
Variable client : Client T V.






(** The strings of the members of the enum are told apart. *)
Hypothesis TxType_distinct :
  forall k1 k2, TxType_value k1 = TxType_value k2 -> k1 = k2.


End BuildFacts.

(** ** Broadcasting *)

Section MoreBroadcastFacts.

Variables T V : Type.
Variable ops : ProtoTxOps T.
Variable Utils : UtilsLib.
Variable client : Client T V.

(** [broadcastTx] sends nothing under a method other than the two it is
    for: it throws the internal error, naming the method, and no request
    goes to the node. *)
Theorem broadcastTx_unsupported_method (txBytes : bytes) (method : string) :
  method <> RpcMethods.BroadcastTxSync ->
  method <> RpcMethods.BroadcastTxAsync ->
  broadcastTx Utils client txBytes method tt
  = mkRun [] tt
      (Raise (Thrown (mkSdkError ("Unsupported broadcast method: " ++ method)
                        Internal))).
Proof.
  intros Hs Ha. unfold broadcastTx, not_inArray.
  apply String.eqb_neq in Hs, Ha. rewrite Hs, Ha. reflexivity.
Qed.

(** Under the mode [Commit], when neither phase reports a code above
    zero, the result has the hash and the height of the response and the
    gas, the info and the tags of its delivery phase, the tags decoded;
    with no delivery phase in the response these four are absent. *)
Theorem commit_success (signedTx : T) (response : RpcResponse) :
  rpc_request client RpcMethods.BroadcastTxCommit
    (bytesToBase64 Utils (getData ops signedTx)) = Done response ->
  phase_failed (check_tx response) = false ->
  phase_failed (deliver_tx response) = false ->
  broadcast ops Utils client signedTx (Some Commit) tt
  = mkRun [RpcRequest RpcMethods.BroadcastTxCommit
             (bytesToBase64 Utils (getData ops signedTx))] tt
      (Ok {| hash := r_hash response;
             height := r_height response;
             gas_wanted := chain (deliver_tx response) rt_gas_wanted;
             gas_used := chain (deliver_tx response) rt_gas_used;
             info := chain (deliver_tx response) rt_info;
             tags := option_map (decodeTags Utils)
                       (chain (deliver_tx response) rt_tags) |}).
Proof.
  intros Hresp Hc Hd. unfold broadcast, broadcastTxCommit, call.
  cbn [bind Monad_M].
  cbv [mbind emit settle outcome final trace app]. rewrite Hresp.
  unfold commit_result, phase_failed in *. cbn [bind ret Monad_M].
  unfold decode_deliver.
  destruct (check_tx response) as [c |]; [rewrite Hc | ];
    (destruct (deliver_tx response) as [d |];
     [rewrite Hd; destruct (rt_tags d) eqn:Et | ]);
    cbn; rewrite ?Et; reflexivity.
Qed.

Lemma broadcast_request (signedTx : T) (mode : option BroadcastMode) :
  network_calls (trace (broadcast ops Utils client signedTx mode tt))
  = [RpcRequest (mode_method mode)
       (bytesToBase64 Utils (getData ops signedTx))]
  /\ forall e,
       rpc_request client (mode_method mode)
         (bytesToBase64 Utils (getData ops signedTx)) = Failed e ->
       broadcast ops Utils client signedTx mode tt
       = mkRun [RpcRequest (mode_method mode)
                  (bytesToBase64 Utils (getData ops signedTx))] tt
           (Raise (Propagated e)).
Proof.
  assert (Hsubmit : forall method,
    not_inArray method = false ->
    network_calls
      (trace ((response <- broadcastTx Utils client (getData ops signedTx)
                             method ;;
               ret (newTxResult (r_hash response) None None)) tt))
    = [RpcRequest method (bytesToBase64 Utils (getData ops signedTx))]
    /\ forall e,
         rpc_request client method
           (bytesToBase64 Utils (getData ops signedTx)) = Failed e ->
         (response <- broadcastTx Utils client (getData ops signedTx)
                        method ;;
          ret (newTxResult (r_hash response) None None)) tt
         = mkRun [RpcRequest method
                    (bytesToBase64 Utils (getData ops signedTx))] tt
             (Raise (Propagated e))).
  { intros method Hm. unfold broadcastTx. rewrite Hm.
    cbv [bind ret Monad_M mbind call emit settle throw mret outcome final
         trace app].
    destruct (rpc_request client method _) as [response | x].
    - split; [ | discriminate].
      destruct (positive_code (r_code response)); reflexivity.
    - split; [reflexivity | ]. intros e H. now injection H as <-. }
  destruct mode as [[] |];
    [exact (Hsubmit RpcMethods.BroadcastTxAsync eq_refl)
    | exact (Hsubmit RpcMethods.BroadcastTxSync eq_refl)
    |
    | exact (Hsubmit RpcMethods.BroadcastTxAsync eq_refl)].
  cbn [mode_method]. unfold broadcast, broadcastTxCommit, call.
  cbn [bind Monad_M].
  cbv [mbind emit settle outcome final trace app].
  destruct (rpc_request client RpcMethods.BroadcastTxCommit _)
    as [response | x].
  - split; [ | discriminate].
    unfold commit_result. cbn [bind ret Monad_M].
    destruct (check_tx response) as [c |];
      [destruct (positive_code (rt_code c)) | ];
      try reflexivity;
      (destruct (deliver_tx response) as [d |];
       [destruct (positive_code (rt_code d)) | ]); reflexivity.
  - split; [reflexivity | ]. intros e H. now injection H as <-.
Qed.

(** Under every mode and whatever the node answers, [broadcast] sends
    exactly one request, with the method of the mode and the bytes of the
    transaction in base64; a request the node rejects ends [broadcast]
    with that rejection. *)
Theorem broadcast_one_request (signedTx : T) (mode : option BroadcastMode) :
  network_calls (trace (broadcast ops Utils client signedTx mode tt))
  = [RpcRequest (mode_method mode)
       (bytesToBase64 Utils (getData ops signedTx))]
  /\ forall e,
       rpc_request client (mode_method mode)
         (bytesToBase64 Utils (getData ops signedTx)) = Failed e ->
       broadcast ops Utils client signedTx mode tt
       = mkRun [RpcRequest (mode_method mode)
                  (bytesToBase64 Utils (getData ops signedTx))] tt
           (Raise (Propagated e)).
Proof.
  destruct (broadcast_request signedTx mode) as [Hone Hrejected].
  split; [exact Hone | ]. intros e He. exact (Hrejected e He).
Qed.

End MoreBroadcastFacts.

(** ** Signing *)

Section MoreSignFacts.

Variables T V : Type.
Variable ops : ProtoTxOps T.
Variable Crypto : CryptoLib.
Variable client : Client T V.

(** With a key store that has no [decrypt], [sign] throws the panic error
    once the name and the password are there, before it reads the key
    store; [sign_signDoc] throws for the same reason, but with no code. *)
Theorem missing_decrypt (baseTx : BaseTx) (tx : T) (signDoc : bytes)
    (type : option PubkeyType) :
  from baseTx <> "" -> password baseTx <> "" ->
  decrypt (keyDAO client) = None ->
  sign ops Crypto client baseTx tx
  = mkRun [] tx
      (Raise (Thrown (mkSdkError "Decrypt method of KeyDAO not implemented"
                        Panic)))
  /\ sign_signDoc Crypto client signDoc (from baseTx) (password baseTx) type tt
     = mkRun [] tt
         (Raise (Thrown (mkSdkError "Decrypt method of KeyDAO not implemented"
                           CodeDefault))).
Proof.
  intros Hf Hp Hd. apply is_empty_false in Hf, Hp.
  unfold sign, sign_signDoc. rewrite Hf, Hp, Hd. split; reflexivity.
Qed.

(** [sign_signDoc] checks its arguments as [sign] does: an empty name or
    an empty password ends it with an error before anything is called,
    and a name the key store has no record for ends it with the
    key-not-found error after the one read. *)
Theorem sign_signDoc_rejections (signDoc : bytes) (name pass : string)
    (type : option PubkeyType) :
  (name = "" \/ pass = "" ->
   exists m,
     sign_signDoc Crypto client signDoc name pass type tt
     = mkRun [] tt (Raise (Thrown (mkSdkError m CodeDefault))))
  /\ (name <> "" -> pass <> "" -> decrypt (keyDAO client) <> None ->
      read (keyDAO client) name = Done None ->
      sign_signDoc Crypto client signDoc name pass type tt
      = mkRun [KeyRead name] tt
          (Raise (Thrown (mkSdkError
                            ("Key with name '" ++ name ++ "' not found")
                            KeyNotFound)))).
Proof.
  unfold sign_signDoc. split.
  - intros [H | H]; apply is_empty_true in H; rewrite H.
    + eexists. reflexivity.
    + destruct (is_empty name); eexists; reflexivity.
  - intros Hn Hp Hd Hr. apply is_empty_false in Hn, Hp. rewrite Hn, Hp.
    destruct (decrypt (keyDAO client)) as [d |]; [ | contradiction].
    cbn [bind Monad_M]. rewrite (bind_call_done _ _ _ None _ _ Hr).
    reflexivity.
Qed.

(** Whatever it is given, [sign_signDoc] calls nothing but the key store,
    for the name and with the password it was given, and the signing
    helper, on the document it was given: no request goes to the node,
    and no transaction is touched. *)
Theorem sign_signDoc_calls (signDoc : bytes) (name pass : string)
    (type : option PubkeyType) :
  (forall e,
      In e (trace (sign_signDoc Crypto client signDoc name pass type tt)) ->
      signDoc_call signDoc name pass e)
  /\ network_calls
       (trace (sign_signDoc Crypto client signDoc name pass type tt)) = [].
Proof.
  assert (H : calls_only (signDoc_call signDoc name pass)
                (sign_signDoc Crypto client signDoc name pass type)).
  { unfold sign_signDoc.
    destruct (is_empty name); [apply calls_only_throw | ].
    destruct (is_empty pass); [apply calls_only_throw | ].
    destruct (decrypt (keyDAO client)) as [d |]; [ | apply calls_only_throw].
    cbn [bind Monad_M].
    apply calls_only_bind; [now apply calls_only_call | ].
    intros [keyObj |]; [ | apply calls_only_throw].
    apply calls_only_bind; [now apply calls_only_call | ].
    intros privKey. now apply calls_only_call. }
  split; [exact (H tt) | ].
  apply no_network_calls. intros e He. apply (H tt) in He.
  destruct e; try reflexivity; contradiction.
Qed.

(** When the node rejects the query for the account, [sign] ends with
    that rejection: the key is not decrypted and nothing is signed. *)
Theorem sign_account_query_rejected (baseTx : BaseTx) (tx : T)
    (decrypt_ : string -> string -> PortRes (option string)) (keyObj : Key)
    (e : PortError) :
  from baseTx <> "" -> password baseTx <> "" ->
  decrypt (keyDAO client) = Some decrypt_ ->
  read (keyDAO client) (from baseTx) = Done (Some keyObj) ->
  missing (account_number baseTx) \/ missing (sequence baseTx) ->
  auth_queryAccount client (address keyObj) = Failed e ->
  sign ops Crypto client baseTx tx
  = mkRun [KeyRead (from baseTx); QueryAccount (address keyObj)] tx
      (Raise (Propagated e)).
Proof.
  intros Hf Hp Hd Hr Hm Hq. apply needs_account_true in Hm.
  rewrite (sign_found T V ops Crypto client baseTx tx decrypt_ keyObj
             Hf Hp Hd Hr).
  cbn [bind Monad_M]. rewrite bind_emit.
  assert (Hres := resolve_queried T V client baseTx keyObj tx Hm).
  rewrite Hq in Hres. erewrite bind_raise by exact Hres. reflexivity.
Qed.

(** When [sign] throws an error of its own, the transaction is as it was
    and nothing was derived, signed or attached. *)
Theorem sign_error_leaves_transaction (baseTx : BaseTx) (tx : T)
    (e : SdkError) :
  outcome (sign ops Crypto client baseTx tx) = Raise (Thrown e) ->
  final (sign ops Crypto client baseTx tx) = tx
  /\ forall ev,
       In ev (trace (sign ops Crypto client baseTx tx)) ->
       is_signing ev = false.
Proof.
  destruct (sign_runs T V ops Crypto client baseTx tx)
    as [m H | m H | x H | m H | keyObj x Hr Hn | keyObj x q Hr ->
       | keyObj m q Hr -> | keyObj k a s q Hr ->];
    cbn [outcome trace final]; intros E; try discriminate.
  - split; [reflexivity | intros ev []].
  - split; [reflexivity | intros ev []].
  - split; [reflexivity | intros ev [<- | []]; reflexivity].
  - split; [reflexivity | ].
    intros ev [<- | H]; [reflexivity | ].
    apply in_app_iff in H. destruct H as [H | [<- | []]]; [ | reflexivity].
    apply account_calls_in in H. destruct H as [_ ->]. reflexivity.
  - exfalso.
    exact (attach_throws_nothing T V ops Crypto client baseTx k a s tx e E).
Qed.

(** The account number and sequence [sign] goes on with. The sequence is
    never the empty string. The account number is the empty string only
    when [baseTx.account_number] is the empty string and the account that
    was asked for has no number, or the number zero. *)
Theorem resolve_never_empty_sequence (baseTx : BaseTx) (keyObj : Key)
    (tx : T) (number seq : string) :
  outcome (resolve client baseTx keyObj tx) = Ok (number, seq) ->
  seq <> ""
  /\ (number = "" ->
      account_number baseTx = Some ""
      /\ exists account,
           auth_queryAccount client (address keyObj) = Done account
           /\ truthy (accountNumber account) = false).
Proof.
  assert (Hor : forall s d, d <> "" -> or_str s d <> "").
  { intros s d Hd. unfold or_str. destruct (String.eqb s "") eqn:E;
      [exact Hd | now apply String.eqb_neq]. }
  assert (Hseq : or_else (sequence baseTx) "0" <> "").
  { unfold or_else. destruct (sequence baseTx) as [s |]; cbn;
      [ | discriminate].
    destruct (String.eqb s "") eqn:E; cbn;
      [discriminate | now apply String.eqb_neq]. }
  destruct (needs_account baseTx) eqn:En.
  - unfold resolve. rewrite En. unfold call.
    cbv [bind ret Monad_M mbind mret emit settle outcome final trace].
    destruct (auth_queryAccount client (address keyObj)) as [account | x];
      [ | discriminate].
    intros H. injection H as Hnum Hs. split.
    + subst seq. destruct (truthy (acc_sequence account));
        [apply Hor; discriminate | exact Hseq].
    + intros ->. destruct (truthy (accountNumber account)) eqn:Et.
      * exfalso. revert Hnum. apply Hor. discriminate.
      * split; [ | now exists account].
        apply needs_account_true in En.
        unfold nullish in Hnum.
        destruct (account_number baseTx) as [s |];
          [now subst s | discriminate].
  - rewrite (resolve_supplied T V client baseTx keyObj tx En).
    cbn [outcome]. intros H. injection H as Hnum Hs.
    split; [now subst seq | ].
    intros ->. exfalso.
    unfold needs_account in En. apply orb_false_iff in En.
    destruct En as [En _]. apply negb_false_iff in En.
    destruct (account_number baseTx) as [s |]; [ | discriminate].
    cbn in Hnum. subst s. discriminate.
Qed.

(** What [attach] did when it ends with a value. *)
Lemma attach_success (baseTx : BaseTx) (k : option string) (a s : string)
    (tx tx' : T) :
  outcome (attach ops Crypto client baseTx k a s tx) = Ok tx' ->
  exists pre tx1 doc signature,
    ((hasPubKey ops tx = true /\ pre = [] /\ tx1 = tx)
     \/ (hasPubKey ops tx = false
         /\ exists pubKey,
              getPublicKeyFromPrivateKey Crypto k (pubkeyType baseTx)
              = Done pubKey
              /\ setPubKey ops pubKey (or_undefined s) tx = Done tx1
              /\ pre = [DerivePublicKey k (pubkeyType baseTx);
                        SetPubKey pubKey (or_undefined s)]))
    /\ getSignDoc ops (or_undefined a) (chainId client) tx1 = Done doc
    /\ generateSignature Crypto (serializeBinary ops doc) k
         (pubkeyType baseTx) = Done signature
    /\ addSignature ops signature tx1 = Done tx'
    /\ trace (attach ops Crypto client baseTx k a s tx)
       = (pre ++ [GetSignDoc (or_undefined a) (chainId client);
                  GenerateSignature (serializeBinary ops doc) k
                    (pubkeyType baseTx);
                  AddSignature signature])%list
    /\ final (attach ops Crypto client baseTx k a s tx) = tx'.
Proof.
  unfold attach.
  cbv [bind ret Monad_M mbind mret call emit settle update get query
       outcome final trace negb].
  destruct (hasPubKey ops tx) eqn:Eh.
  - destruct (getSignDoc ops (or_undefined a) (chainId client) tx)
      as [doc | x] eqn:Ed; [ | discriminate].
    destruct (generateSignature Crypto (serializeBinary ops doc) k
                (pubkeyType baseTx)) as [sig | x] eqn:Eg; [ | discriminate].
    destruct (addSignature ops sig tx) as [tx2 | x] eqn:Ea; [ | discriminate].
    intros H. injection H as <-.
    exists [], tx, doc, sig. repeat split; auto.
  - destruct (getPublicKeyFromPrivateKey Crypto k (pubkeyType baseTx))
      as [pk | x] eqn:Ek; [ | discriminate].
    destruct (setPubKey ops pk (or_undefined s) tx) as [tx1 | x] eqn:Es;
      [ | discriminate].
    destruct (getSignDoc ops (or_undefined a) (chainId client) tx1)
      as [doc | x] eqn:Ed; [ | discriminate].
    destruct (generateSignature Crypto (serializeBinary ops doc) k
                (pubkeyType baseTx)) as [sig | x] eqn:Eg; [ | discriminate].
    destruct (addSignature ops sig tx1) as [tx2 | x] eqn:Ea;
      [ | discriminate].
    intros H. injection H as <-.
    exists [DerivePublicKey k (pubkeyType baseTx);
            SetPubKey pk (or_undefined s)], tx1, doc, sig.
    split; [right; split; [reflexivity | exists pk; auto] | ].
    repeat split; auto.
Qed.

(** [resolve] leaves the transaction alone. *)
Lemma resolve_run (baseTx : BaseTx) (keyObj : Key) (tx : T)
    (v : string * string) :
  outcome (resolve client baseTx keyObj tx) = Ok v ->
  resolve client baseTx keyObj tx
  = mkRun (account_calls baseTx keyObj) tx (Ok v).
Proof.
  unfold account_calls. destruct (needs_account baseTx) eqn:En.
  - rewrite (resolve_queried T V client baseTx keyObj tx En).
    destruct (auth_queryAccount client (address keyObj));
      cbn [outcome]; intros H; [now injection H as <- | discriminate].
  - rewrite (resolve_supplied T V client baseTx keyObj tx En).
    cbn [outcome]. intros H. now injection H as <-.
Qed.

(** [sign] from the decrypted key on. *)
Lemma sign_decrypted (baseTx : BaseTx) (tx : T)
    (decrypt_ : string -> string -> PortRes (option string)) (keyObj : Key)
    (privKey : option string) (a s : string) :
  from baseTx <> "" -> password baseTx <> "" ->
  decrypt (keyDAO client) = Some decrypt_ ->
  read (keyDAO client) (from baseTx) = Done (Some keyObj) ->
  outcome (resolve client baseTx keyObj tx) = Ok (a, s) ->
  decrypt_ (privateKey keyObj) (password baseTx) = Done privKey ->
  truthy_str privKey = true ->
  sign ops Crypto client baseTx tx
  = mkRun (KeyRead (from baseTx)
           :: account_calls baseTx keyObj
           ++ KeyDecrypt (privateKey keyObj) (password baseTx)
              :: trace (attach ops Crypto client baseTx privKey a s tx))
      (final (attach ops Crypto client baseTx privKey a s tx))
      (outcome (attach ops Crypto client baseTx privKey a s tx)).
Proof.
  intros Hf Hp Hd Hr Hres Hk Ht.
  rewrite (sign_found T V ops Crypto client baseTx tx decrypt_ keyObj
             Hf Hp Hd Hr).
  cbn [bind Monad_M]. rewrite bind_emit.
  assert (Hrun := resolve_run baseTx keyObj tx (a, s) Hres).
  erewrite bind_value by exact Hrun.
  rewrite (bind_call_done _ _ _ privKey _ _ Hk), Ht.
  reflexivity.
Qed.

(** A successful [sign] has read the key store once, has decrypted the
    key of the record to a key that is not empty, and has attached the
    signature that [Crypto.generateSignature] made, with that key, of
    the serialized sign document of the transaction; the document is
    asked for with the resolved account number and the chain id of the
    client, after the public key is set when there was none, then with
    the resolved sequence. Its calls are these and in this order. *)
Theorem sign_success (baseTx : BaseTx) (tx tx' : T) :
  outcome (sign ops Crypto client baseTx tx) = Ok tx' ->
  exists keyObj decrypt_ privKey a s pre tx1 doc signature,
    read (keyDAO client) (from baseTx) = Done (Some keyObj)
    /\ decrypt (keyDAO client) = Some decrypt_
    /\ decrypt_ (privateKey keyObj) (password baseTx) = Done privKey
    /\ truthy_str privKey = true
    /\ outcome (resolve client baseTx keyObj tx) = Ok (a, s)
    /\ ((hasPubKey ops tx = true /\ pre = [] /\ tx1 = tx)
        \/ (hasPubKey ops tx = false
            /\ exists pubKey,
                 getPublicKeyFromPrivateKey Crypto privKey
                   (pubkeyType baseTx) = Done pubKey
                 /\ setPubKey ops pubKey (or_undefined s) tx = Done tx1
                 /\ pre = [DerivePublicKey privKey (pubkeyType baseTx);
                           SetPubKey pubKey (or_undefined s)]))
    /\ getSignDoc ops (or_undefined a) (chainId client) tx1 = Done doc
    /\ generateSignature Crypto (serializeBinary ops doc) privKey
         (pubkeyType baseTx) = Done signature
    /\ addSignature ops signature tx1 = Done tx'
    /\ trace (sign ops Crypto client baseTx tx)
       = (KeyRead (from baseTx)
          :: account_calls baseTx keyObj
          ++ KeyDecrypt (privateKey keyObj) (password baseTx)
             :: pre
             ++ [GetSignDoc (or_undefined a) (chainId client);
                 GenerateSignature (serializeBinary ops doc) privKey
                   (pubkeyType baseTx);
                 AddSignature signature])%list
    /\ final (sign ops Crypto client baseTx tx) = tx'.
Proof.
  intros Hok.
  destruct (is_empty (from baseTx)) eqn:Ef.
  { unfold sign in Hok. rewrite Ef in Hok. discriminate. }
  destruct (is_empty (password baseTx)) eqn:Ep.
  { unfold sign in Hok. rewrite Ef, Ep in Hok. discriminate. }
  destruct (decrypt (keyDAO client)) as [d |] eqn:Ed.
  2:{ unfold sign in Hok. rewrite Ef, Ep, Ed in Hok. discriminate. }
  destruct (read (keyDAO client) (from baseTx)) as [[keyObj |] | x] eqn:Er.
  2:{ unfold sign in Hok. rewrite Ef, Ep, Ed in Hok.
      cbn [bind Monad_M] in Hok.
      rewrite (bind_call_done _ _ _ None _ _ Er) in Hok. discriminate. }
  2:{ unfold sign in Hok. rewrite Ef, Ep, Ed in Hok.
      cbn [bind Monad_M] in Hok.
      rewrite (bind_call_failed _ _ _ x _ _ Er) in Hok. discriminate. }
  apply is_empty_false in Ef, Ep.
  destruct (outcome (resolve client baseTx keyObj tx)) as [[a s] | x] eqn:Eres.
  2:{ rewrite (sign_found T V ops Crypto client baseTx tx d keyObj
                 Ef Ep Ed Er) in Hok.
      cbn [bind Monad_M] in Hok. rewrite bind_emit in Hok.
      cbn [outcome] in Hok. rewrite outcome_bind, Eres in Hok.
      discriminate. }
  assert (Hrun := resolve_run baseTx keyObj tx (a, s) Eres).
  destruct (d (privateKey keyObj) (password baseTx)) as [privKey | x] eqn:Ek.
  2:{ rewrite (sign_found T V ops Crypto client baseTx tx d keyObj
                 Ef Ep Ed Er) in Hok.
      cbn [bind Monad_M] in Hok. rewrite bind_emit in Hok.
      erewrite bind_value in Hok by exact Hrun.
      rewrite (bind_call_failed _ _ _ x _ _ Ek) in Hok. discriminate. }
  destruct (truthy_str privKey) eqn:Et.
  2:{ rewrite (sign_found T V ops Crypto client baseTx tx d keyObj
                 Ef Ep Ed Er) in Hok.
      cbn [bind Monad_M] in Hok. rewrite bind_emit in Hok.
      erewrite bind_value in Hok by exact Hrun.
      rewrite (bind_call_done _ _ _ privKey _ _ Ek), Et in Hok.
      discriminate. }
  rewrite (sign_decrypted baseTx tx d keyObj privKey a s
             Ef Ep Ed Er Eres Ek Et) in Hok |- *.
  cbn [outcome trace final] in Hok |- *.
  destruct (attach_success baseTx privKey a s tx tx' Hok)
    as (pre & tx1 & doc & sig & Hpre & Hdoc & Hsig & Hadd & Htrace & Hfinal).
  exists keyObj, d, privKey, a, s, pre, tx1, doc, sig.
  rewrite Htrace. repeat split; assumption.
Qed.

(** When the signing helper throws after the public key was set, [sign]
    ends with that exception and leaves the transaction with the public
    key set and no signature attached: the change is not taken back. *)
Theorem sign_failure_keeps_public_key (baseTx : BaseTx) (tx tx1 : T)
    (decrypt_ : string -> string -> PortRes (option string)) (keyObj : Key)
    (privKey : option string) (a s pubKey : string) (doc : SignDoc)
    (e : PortError) :
  from baseTx <> "" -> password baseTx <> "" ->
  decrypt (keyDAO client) = Some decrypt_ ->
  read (keyDAO client) (from baseTx) = Done (Some keyObj) ->
  outcome (resolve client baseTx keyObj tx) = Ok (a, s) ->
  decrypt_ (privateKey keyObj) (password baseTx) = Done privKey ->
  truthy_str privKey = true ->
  hasPubKey ops tx = false ->
  getPublicKeyFromPrivateKey Crypto privKey (pubkeyType baseTx)
  = Done pubKey ->
  setPubKey ops pubKey (or_undefined s) tx = Done tx1 ->
  getSignDoc ops (or_undefined a) (chainId client) tx1 = Done doc ->
  generateSignature Crypto (serializeBinary ops doc) privKey
    (pubkeyType baseTx) = Failed e ->
  outcome (sign ops Crypto client baseTx tx) = Raise (Propagated e)
  /\ final (sign ops Crypto client baseTx tx) = tx1
  /\ forall signature,
       ~ In (AddSignature signature)
            (trace (sign ops Crypto client baseTx tx)).
Proof.
  intros Hf Hp Hd Hr Hres Hk Ht Hh Hpk Hset Hdoc Hsig.
  rewrite (sign_decrypted baseTx tx decrypt_ keyObj privKey a s
             Hf Hp Hd Hr Hres Hk Ht).
  cbn [outcome trace final]. unfold attach.
  cbv [bind ret Monad_M mbind mret call emit settle update get query
       outcome final trace negb].
  rewrite Hh, Hpk, Hset, Hdoc, Hsig.
  split; [reflexivity | ]. split; [reflexivity | ].
  intros sig [H | H]; [discriminate | ].
  apply in_app_iff in H. destruct H as [H | H].
  - apply account_calls_in in H. destruct H as [_ H]. discriminate.
  - cbn in H. intuition discriminate.
Qed.


End MoreSignFacts.

(** ** Signing on the transaction object of the spec, once more *)

Section SignModelFacts.

Variable V : Type.
Variable codec : Codec V.
Variable Crypto : CryptoLib.
Variable client : Client (ProtoTx V) V.



End SignModelFacts.

(** ** The whole pipeline *)

Section MorePipelineFacts.

Variables T V : Type.
Variable ops : ProtoTxOps T.
Variable Crypto : CryptoLib.
Variable Utils : UtilsLib.
Variable TxType_value : TxType -> string.
Variable client : Client T V.

Lemma sign_sends_no_request (baseTx : BaseTx) (tx : T) (m t : string) :
  ~ In (RpcRequest m t) (trace (sign ops Crypto client baseTx tx)).
Proof.
  destruct (sign_runs T V ops Crypto client baseTx tx)
    as [x H | x H | x H | x H | keyObj x Hr Hn | keyObj x q Hr ->
       | keyObj x q Hr -> | keyObj k a s q Hr ->];
    cbn [trace]; intros Hin.
  - destruct Hin.
  - destruct Hin.
  - destruct Hin as [H' | []]. discriminate.
  - destruct Hin as [H' | []]. discriminate.
  - destruct Hin as [H' | [H' | []]]; discriminate.
  - destruct Hin as [H' | H']; [discriminate | ].
    apply in_app_iff in H'. destruct H' as [H' | [H' | []]];
      [ | discriminate].
    apply account_calls_in in H'. destruct H' as [_ H']. discriminate.
  - destruct Hin as [H' | H']; [discriminate | ].
    apply in_app_iff in H'. destruct H' as [H' | [H' | []]];
      [ | discriminate].
    apply account_calls_in in H'. destruct H' as [_ H']. discriminate.
  - destruct Hin as [H' | H']; [discriminate | ].
    apply in_app_iff in H'. destruct H' as [H' | [H' | H']];
      [ | discriminate | ].
    + apply account_calls_in in H'. destruct H' as [_ H']. discriminate.
    + apply (attach_calls T V ops Crypto client) in H'.
      destruct H' as [H' _]. discriminate.
Qed.

(** [buildAndSend] submits nothing that is not signed: a request to
    broadcast is sent only after every message was built and [sign] has
    returned, and it carries the bytes of the transaction [sign]
    returned, under the method of the mode of [baseTx]. *)
Theorem buildAndSend_submits_signed (msgs : list (TxMsg V))
    (baseTx : BaseTx) (m t : string) :
  In (RpcRequest m t)
     (trace (buildAndSend ops Crypto Utils TxType_value client
               msgs baseTx tt)) ->
  exists unsignedTx signedTx,
    buildTx TxType_value client msgs baseTx = Ok unsignedTx
    /\ outcome (sign ops Crypto client baseTx unsignedTx) = Ok signedTx
    /\ m = mode_method (mode baseTx)
    /\ t = bytesToBase64 Utils (getData ops signedTx).
Proof.
  unfold buildAndSend. cbn [bind Monad_M].
  destruct (buildTx TxType_value client msgs baseTx) as [unsignedTx | x].
  2:{ intros []. }
  rewrite trace_bind. cbn [of_res outcome trace final app].
  rewrite trace_bind. unfold on_object. cbn [outcome trace final].
  destruct (outcome (sign ops Crypto client baseTx unsignedTx))
    as [signedTx | x] eqn:Es.
  2:{ intros H. now apply sign_sends_no_request in H. }
  intros H. apply in_app_iff in H. destruct H as [H | H].
  { now apply sign_sends_no_request in H. }
  exists unsignedTx, signedTx. split; [reflexivity | ].
  split; [exact Es | ].
  destruct (broadcast_request T V ops Utils client signedTx
              (mode baseTx)) as [Hone _].
  assert (Hnet : In (RpcRequest m t)
                    (network_calls
                       (trace (broadcast ops Utils client signedTx
                                 (mode baseTx) tt)))).
  { unfold network_calls. apply filter_In. now split. }
  rewrite Hone in Hnet. destruct Hnet as [Heq | []].
  injection Heq as <- <-. now split.
Qed.

(** [Bank.queryAccount] sends its two queries, for the account and for
    the balances of the address, whatever the node answers to either;
    when both are answered, the account is the one of the first answer
    with the coins of the second in place of its own; when one is
    rejected, so is the whole. *)
Theorem queryAccount_two_queries (address : string) :
  trace (queryAccount client address tt)
  = [AbciQuery "custom/auth/account" address;
     AbciQuery "custom/bank/all_balances" address]
  /\ (forall acc bal,
        rpc_abciQuery_account client "custom/auth/account" address
        = Done acc ->
        rpc_abciQuery_coins client "custom/bank/all_balances" address
        = Done bal ->
        outcome (queryAccount client address tt)
        = Ok {| coins := bal;
                accountNumber := accountNumber acc;
                acc_sequence := acc_sequence acc |})
  /\ (forall e bal,
        rpc_abciQuery_account client "custom/auth/account" address
        = Failed e ->
        rpc_abciQuery_coins client "custom/bank/all_balances" address
        = Done bal ->
        outcome (queryAccount client address tt) = Raise (Propagated e))
  /\ (forall acc e,
        rpc_abciQuery_account client "custom/auth/account" address
        = Done acc ->
        rpc_abciQuery_coins client "custom/bank/all_balances" address
        = Failed e ->
        outcome (queryAccount client address tt) = Raise (Propagated e)).
Proof.
  unfold queryAccount.
  cbv [bind ret Monad_M mbind mret emit settle outcome final trace app].
  destruct (rpc_abciQuery_account client "custom/auth/account" address)
    as [acc | x];
    destruct (rpc_abciQuery_coins client "custom/bank/all_balances" address)
      as [bal | y];
    repeat split; intros; try discriminate;
    repeat match goal with
      | H : Done _ = Done _ |- _ => injection H as <-
      | H : Failed _ = Failed _ |- _ => injection H as <-
      end; reflexivity.
Qed.

End MorePipelineFacts.

(** ** The bank module *)



Section BankFacts.

Variable T : Type.
Variable ops : ProtoTxOps T.
Variable Crypto : CryptoLib.
Variable Utils : UtilsLib.
Variable TxType_value : TxType -> string.
Variable client : Client T BankValue.
Variable ports : BankPorts.

(** [send] and [multiSend] turn down a recipient that is no address of
    the configured prefix before anything else happens: no key is looked
    up, nothing is built, signed or sent. An exception of [keys.show] is
    passed on in the same way. *)
Theorem send_rejections (to : string) (amount : list Coin)
    (baseTx : BaseTx) :
  (checkAddress ports to (AccAddr ports) = false ->
   send ops Crypto Utils TxType_value client ports to amount baseTx tt
   = mkRun [] tt
       (Raise (Thrown (mkSdkError "Invalid bech32 address" CodeDefault)))
   /\ multiSend ops Crypto Utils TxType_value client ports to amount
        baseTx tt
      = mkRun [] tt
          (Raise (Thrown (mkSdkError "Invalid bech32 address" CodeDefault))))
  /\ (forall e,
        checkAddress ports to (AccAddr ports) = true ->
        keys_show ports (from baseTx) = Failed e ->
        send ops Crypto Utils TxType_value client ports to amount baseTx tt
        = mkRun [] tt (Raise (Propagated e))
        /\ multiSend ops Crypto Utils TxType_value client ports to amount
             baseTx tt
           = mkRun [] tt (Raise (Propagated e))).
Proof.
  unfold send, multiSend. split.
  - intros ->. split; reflexivity.
  - intros e -> He. cbn [negb bind Monad_M].
    cbv [mbind settle outcome final trace]. rewrite He.
    split; reflexivity.
Qed.

(** The strings of the members of the enum are told apart. *)
Hypothesis TxType_distinct :
  forall k1 k2, TxType_value k1 = TxType_value k2 -> k1 = k2.


End BankFacts.

(** *** Notifications of transfers *)

Lemma nth_error_skipn {A} (l : list A) (n : nat) (x : A) :
  nth_error l n = Some x -> skipn n l = x :: skipn (S n) l.
Proof.
  revert n. induction l as [| y l IH]; intros [| n]; cbn; try discriminate.
  - intros H. now injection H as ->.
  - apply IH.
Qed.

Lemma notify_inputs_spec (height hash : string) (inputs outputs : list Input)
    (index : nat) :
  snd (notify_inputs height hash inputs outputs index)
  = Nat.ltb (length outputs - index) (length inputs)
  /\ (length inputs <= length outputs - index ->
      fst (notify_inputs height hash inputs outputs index)
      = map (fun io : Input * Input =>
               NoticeSend height hash (in_address (fst io))
                 (in_address (snd io)) (in_coins (fst io)))
            (combine inputs (skipn index outputs))).
Proof.
  revert index. induction inputs as [| input rest IH]; intros index.
  - cbn. split; reflexivity.
  - cbn [notify_inputs length].
    destruct (nth_error outputs index) as [output |] eqn:En.
    + assert (Hlt : index < length outputs).
      { apply nth_error_Some. rewrite En. discriminate. }
      destruct (IH (S index)) as [IHs IHf].
      destruct (notify_inputs height hash rest outputs (S index))
        as [notices thrown].
      cbn [fst snd] in *. split.
      * rewrite IHs.
        destruct (Nat.ltb_spec (length outputs - S index) (length rest)),
                 (Nat.ltb_spec (length outputs - index) (S (length rest)));
          try reflexivity; lia.
      * intros Hle. rewrite (nth_error_skipn outputs index output En).
        cbn [combine map fst snd]. f_equal. apply IHf. lia.
    + apply nth_error_None in En. cbn [fst snd]. split.
      * symmetry. apply Nat.ltb_lt. lia.
      * intros Hle. lia.
Qed.

Lemma notify_msgs_spec (height hash : string) (msgs : list EventMsg) :
  snd (notify_msgs height hash msgs) = existsb short_of_outputs msgs
  /\ (existsb short_of_outputs msgs = false ->
      fst (notify_msgs height hash msgs)
      = flat_map (transfers height hash) (filter is_send msgs)).
Proof.
  induction msgs as [| msg rest [IHs IHf]]; [split; reflexivity | ].
  cbn [notify_msgs existsb filter]. unfold short_of_outputs at 1 3.
  destruct (is_send msg) eqn:Es; cbn [andb]; [ | now split].
  destruct (notify_inputs_spec height hash (em_inputs msg) (em_outputs msg) 0)
    as [Hs Hf].
  rewrite Nat.sub_0_r in Hs, Hf. cbn [skipn] in Hf.
  destruct (notify_inputs height hash (em_inputs msg) (em_outputs msg) 0)
    as [notices thrown].
  cbn [fst snd] in *. rewrite <- Hs.
  destruct thrown; cbn [orb]; [split; [reflexivity | discriminate] | ].
  destruct (notify_msgs height hash rest) as [notices' thrown'].
  cbn [fst snd] in *. split; [exact IHs | ].
  intros Hrest. cbn [flat_map]. unfold transfers at 1.
  rewrite <- Hf, (IHf Hrest); [reflexivity | ].
  symmetry in Hs. apply Nat.ltb_ge in Hs. exact Hs.
Qed.

(** The handler of [subscribeSendTx]. An error is handed to the callback
    and the data are not looked at. Without an error, the handler throws
    exactly when some message of the transfer type has more inputs than
    outputs; when none has, the callback is called once for every input
    of every message of the transfer type, in order, with the height and
    the hash of the transaction, the address of the input, the address
    of the output at the same index and the coins of the input; messages
    of other types give no call. *)
Theorem send_handler_notices (error : option SdkError)
    (data : option EventData) :
  (forall e, error = Some e ->
     send_handler error data = ([NoticeError e], false))
  /\ (forall d, error = None -> data = Some d ->
        snd (send_handler error data)
        = existsb short_of_outputs (ed_msgs d)
        /\ (existsb short_of_outputs (ed_msgs d) = false ->
            fst (send_handler error data)
            = flat_map (transfers (ed_height d) (ed_hash d))
                (filter is_send (ed_msgs d))))
  /\ (error = None -> data = None -> send_handler error data = ([], false)).
Proof.
  split; [ | split].
  - intros e ->. reflexivity.
  - intros d -> ->. cbn [send_handler]. apply notify_msgs_spec.
  - intros -> ->. reflexivity.
Qed.

(** ** The properties on the sample clients *)




Lemma broadcastTx_unsupported_method_sample :
  broadcastTx Sample.utils (Sample.node Sample.store Sample.accepted)
    [] "broadcast_tx_commit" tt
  = mkRun [] tt
      (Raise (Thrown (mkSdkError
                        "Unsupported broadcast method: broadcast_tx_commit"
                        Internal))).
Proof.
  apply (broadcastTx_unsupported_method _ _ Sample.utils
           (Sample.node Sample.store Sample.accepted)
           [] "broadcast_tx_commit"); discriminate.
Defined.

Lemma commit_success_sample :
  broadcast BankSample.ops Sample.utils
    (BankSample.node Sample.store (Done Sample.account)
       (Done BankSample.committed))
    BankSample.unsigned (Some Commit) tt
  = mkRun [RpcRequest "broadcast_tx_commit" "dHg="] tt
      (Ok {| hash := "AB12";
             height := Some 7%Z;
             gas_wanted := Some "200000";
             gas_used := Some "51234";
             info := None;
             tags := Some [("YWN0aW9u", "c2VuZA==")] |}).
Proof.
  apply (commit_success _ _ BankSample.ops Sample.utils
           (BankSample.node Sample.store (Done Sample.account)
              (Done BankSample.committed))
           BankSample.unsigned BankSample.committed);
    reflexivity.
Defined.

Lemma missing_decrypt_sample :
  sign BankSample.ops Sample.crypto
    (BankSample.node BankSample.bare_store (Done Sample.account)
       (Done Sample.accepted))
    (Sample.base "alice" "pw" None None) BankSample.unsigned
  = mkRun [] BankSample.unsigned
      (Raise (Thrown (mkSdkError "Decrypt method of KeyDAO not implemented"
                        Panic)))
  /\ sign_signDoc Sample.crypto
       (BankSample.node BankSample.bare_store (Done Sample.account)
          (Done Sample.accepted))
       [] "alice" "pw" None tt
     = mkRun [] tt
         (Raise (Thrown (mkSdkError "Decrypt method of KeyDAO not implemented"
                           CodeDefault))).
Proof.
  apply (missing_decrypt _ _ BankSample.ops Sample.crypto
           (BankSample.node BankSample.bare_store (Done Sample.account)
              (Done Sample.accepted))
           (Sample.base "alice" "pw" None None) BankSample.unsigned [] None);
    [discriminate | discriminate | reflexivity].
Defined.

Lemma sign_signDoc_rejections_sample :
  sign_signDoc Sample.crypto (Sample.node Sample.store Sample.accepted)
    [] "bob" "pw" None tt
  = mkRun [KeyRead "bob"] tt
      (Raise (Thrown (mkSdkError "Key with name 'bob' not found"
                        KeyNotFound))).
Proof.
  apply (proj2 (sign_signDoc_rejections _ _ Sample.crypto
                  (Sample.node Sample.store Sample.accepted)
                  [] "bob" "pw" None));
    [discriminate | discriminate | discriminate | reflexivity].
Defined.

Lemma sign_account_query_rejected_sample :
  sign BankSample.ops Sample.crypto
    (BankSample.node Sample.store (Failed "timeout") (Done Sample.accepted))
    (Sample.base "alice" "pw" None None) BankSample.unsigned
  = mkRun [KeyRead "alice"; QueryAccount "iaa1alice"] BankSample.unsigned
      (Raise (Propagated "timeout")).
Proof.
  apply (sign_account_query_rejected _ _ BankSample.ops Sample.crypto
           (BankSample.node Sample.store (Failed "timeout")
              (Done Sample.accepted))
           (Sample.base "alice" "pw" None None) BankSample.unsigned
           Sample.store_decrypt Sample.alice "timeout").
  - discriminate.
  - discriminate.
  - reflexivity.
  - reflexivity.
  - left. left. reflexivity.
  - reflexivity.
Defined.

Lemma sign_error_leaves_transaction_sample :
  final (sign Sample.ops Sample.crypto
           (Sample.node Sample.store Sample.accepted)
           (Sample.base "alice" "wrong" None None) Sample.unsigned)
  = Sample.unsigned
  /\ forall ev,
       In ev (trace (sign Sample.ops Sample.crypto
                       (Sample.node Sample.store Sample.accepted)
                       (Sample.base "alice" "wrong" None None)
                       Sample.unsigned)) ->
       is_signing ev = false.
Proof.
  apply (sign_error_leaves_transaction _ _ Sample.ops Sample.crypto
           (Sample.node Sample.store Sample.accepted)
           (Sample.base "alice" "wrong" None None) Sample.unsigned
           (mkSdkError "decrypto the private key error" InvalidPassword)).
  reflexivity.
Defined.

(** An account number given as the empty string, on a chain that has no
    number for the account: the number stays empty. *)
Lemma resolve_never_empty_sequence_sample :
  "0" <> ""
  /\ ("" = "" ->
      account_number (Sample.base "alice" "pw" (Some "") None) = Some ""
      /\ exists account,
           auth_queryAccount
             (BankSample.node Sample.store
                (Done (mkBaseAccount [] JUndefined JUndefined))
                (Done Sample.accepted)) "iaa1alice" = Done account
           /\ truthy (accountNumber account) = false).
Proof.
  apply (resolve_never_empty_sequence _ _
           (BankSample.node Sample.store
              (Done (mkBaseAccount [] JUndefined JUndefined))
              (Done Sample.accepted))
           (Sample.base "alice" "pw" (Some "") None) Sample.alice
           BankSample.unsigned "" "0").
  reflexivity.
Defined.

Lemma sign_success_sample :
  exists keyObj decrypt_ privKey a s pre tx1 doc signature,
    read Sample.store "alice" = Done (Some keyObj)
    /\ decrypt Sample.store = Some decrypt_
    /\ decrypt_ (privateKey keyObj) "pw" = Done privKey
    /\ truthy_str privKey = true
    /\ outcome (resolve (Sample.node Sample.store Sample.accepted)
                  (Sample.base "alice" "pw" (Some "5") (Some "2"))
                  keyObj Sample.unsigned) = Ok (a, s)
    /\ ((hasPubKey Sample.ops Sample.unsigned = true
         /\ pre = [] /\ tx1 = Sample.unsigned)
        \/ (hasPubKey Sample.ops Sample.unsigned = false
            /\ exists pubKey,
                 getPublicKeyFromPrivateKey Sample.crypto privKey None
                 = Done pubKey
                 /\ setPubKey Sample.ops pubKey (or_undefined s)
                      Sample.unsigned = Done tx1
                 /\ pre = [DerivePublicKey privKey None;
                           SetPubKey pubKey (or_undefined s)]))
    /\ getSignDoc Sample.ops (or_undefined a) "test-1" tx1 = Done doc
    /\ generateSignature Sample.crypto (serializeBinary Sample.ops doc)
         privKey None = Done signature
    /\ addSignature Sample.ops signature tx1
       = Done (mkProtoTx [New CMsgSend "10stake"] None None None
                 (Some ("pub", Some "2")) ["sig"])
    /\ trace (sign Sample.ops Sample.crypto
                (Sample.node Sample.store Sample.accepted)
                (Sample.base "alice" "pw" (Some "5") (Some "2"))
                Sample.unsigned)
       = (KeyRead "alice"
          :: account_calls (Sample.base "alice" "pw" (Some "5") (Some "2"))
               keyObj
          ++ KeyDecrypt (privateKey keyObj) "pw"
             :: pre
             ++ [GetSignDoc (or_undefined a) "test-1";
                 GenerateSignature (serializeBinary Sample.ops doc)
                   privKey None;
                 AddSignature signature])%list
    /\ final (sign Sample.ops Sample.crypto
                (Sample.node Sample.store Sample.accepted)
                (Sample.base "alice" "pw" (Some "5") (Some "2"))
                Sample.unsigned)
       = mkProtoTx [New CMsgSend "10stake"] None None None
           (Some ("pub", Some "2")) ["sig"].
Proof.
  apply (sign_success _ _ Sample.ops Sample.crypto
           (Sample.node Sample.store Sample.accepted)
           (Sample.base "alice" "pw" (Some "5") (Some "2")) Sample.unsigned
           (mkProtoTx [New CMsgSend "10stake"] None None None
              (Some ("pub", Some "2")) ["sig"])).
  reflexivity.
Defined.

Lemma sign_failure_keeps_public_key_sample :
  outcome (sign BankSample.ops BankSample.crypto_failing
             (BankSample.node Sample.store (Done Sample.account)
                (Done Sample.accepted))
             (Sample.base "alice" "pw" (Some "5") (Some "2"))
             BankSample.unsigned)
  = Raise (Propagated "not implement")
  /\ final (sign BankSample.ops BankSample.crypto_failing
              (BankSample.node Sample.store (Done Sample.account)
                 (Done Sample.accepted))
              (Sample.base "alice" "pw" (Some "5") (Some "2"))
              BankSample.unsigned)
     = mkProtoTx [New CMsgSend BankSample.transfer] None None None
         (Some ("pub", Some "2")) []
  /\ forall signature,
       ~ In (AddSignature signature)
            (trace (sign BankSample.ops BankSample.crypto_failing
                      (BankSample.node Sample.store (Done Sample.account)
                         (Done Sample.accepted))
                      (Sample.base "alice" "pw" (Some "5") (Some "2"))
                      BankSample.unsigned)).
Proof.
  apply (sign_failure_keeps_public_key _ _ BankSample.ops
           BankSample.crypto_failing
           (BankSample.node Sample.store (Done Sample.account)
              (Done Sample.accepted))
           (Sample.base "alice" "pw" (Some "5") (Some "2"))
           BankSample.unsigned
           (mkProtoTx [New CMsgSend BankSample.transfer] None None None
              (Some ("pub", Some "2")) [])
           Sample.store_decrypt Sample.alice (Some "c0ffee") "5" "2" "pub"
           (mkSignDoc (Some "5") "test-1" []) "not implement");
    first [discriminate | reflexivity].
Defined.

Lemma buildAndSend_submits_signed_sample :
  exists unsignedTx signedTx,
    buildTx Sample.TxType_name
      (BankSample.node Sample.store (Done Sample.account)
         (Done Sample.accepted))
      [mkTxMsg "MsgSend" BankSample.transfer]
      (Sample.base "alice" "pw" None None) = Ok unsignedTx
    /\ outcome (sign BankSample.ops Sample.crypto
                  (BankSample.node Sample.store (Done Sample.account)
                     (Done Sample.accepted))
                  (Sample.base "alice" "pw" None None) unsignedTx)
       = Ok signedTx
    /\ "broadcast_tx_async"
       = mode_method (mode (Sample.base "alice" "pw" None None))
    /\ "dHg=" = bytesToBase64 Sample.utils (getData BankSample.ops signedTx).
Proof.
  apply (buildAndSend_submits_signed _ _ BankSample.ops Sample.crypto
           Sample.utils Sample.TxType_name
           (BankSample.node Sample.store (Done Sample.account)
              (Done Sample.accepted))
           [mkTxMsg "MsgSend" BankSample.transfer]
           (Sample.base "alice" "pw" None None)
           "broadcast_tx_async" "dHg=").
  cbv. tauto.
Defined.

Lemma queryAccount_two_queries_sample :
  outcome (queryAccount
             (BankSample.node Sample.store (Done Sample.account)
                (Done Sample.accepted)) "iaa1alice" tt)
  = Ok {| coins := [mkCoin "stake" "10"];
          accountNumber := JNumber 3;
          acc_sequence := JNumber 0 |}.
Proof.
  apply (proj1 (proj2 (queryAccount_two_queries _ _
                         (BankSample.node Sample.store (Done Sample.account)
                            (Done Sample.accepted)) "iaa1alice"))
           Sample.account [mkCoin "stake" "10"]);
    reflexivity.
Defined.


Lemma send_rejections_sample :
  send BankSample.ops Sample.crypto Sample.utils Sample.TxType_name
    (BankSample.node Sample.store (Done Sample.account)
       (Done Sample.accepted))
    BankSample.ports "cosmos1bob" [mkCoin "stake" "10"]
    (Sample.base "alice" "pw" None None) tt
  = mkRun [] tt
      (Raise (Thrown (mkSdkError "Invalid bech32 address" CodeDefault))).
Proof.
  apply (proj1 (send_rejections _ BankSample.ops Sample.crypto Sample.utils
                  Sample.TxType_name
                  (BankSample.node Sample.store (Done Sample.account)
                     (Done Sample.accepted))
                  BankSample.ports "cosmos1bob" [mkCoin "stake" "10"]
                  (Sample.base "alice" "pw" None None))).
  reflexivity.
Defined.


Lemma send_handler_notices_sample :
  snd (send_handler None (Some BankSample.reported)) = false
  /\ fst (send_handler None (Some BankSample.reported))
     = [NoticeSend "12" "AB12" "a1" "b1" [mkCoin "stake" "1"];
        NoticeSend "12" "AB12" "a2" "b2" []].
Proof.
  destruct (proj1 (proj2 (send_handler_notices None
                            (Some BankSample.reported)))
              BankSample.reported eq_refl eq_refl) as [Hthrown Hnotices].
  split; [exact Hthrown | exact (Hnotices eq_refl)].
Defined.
